(** * OpenRouter → PostHog daily analytics sync

    A shallow embedding of [scripts/sync_openrouter_analytics.py] and the
    properties of its aggregator, event sender, date range planner and sync
    driver.

    Modelling conventions.
    - JSON documents returned by [response.json()] are values of [json];
      a Python [dict] with string keys is a [gmap string json].
    - A Python [int] is a [Z] and a Python [float] is a binary64 value of
      Rocq's primitive type [float], so that an addition rounds and
      overflows as it does in Python.  The floats of a JSON document are
      finite; NaN and the infinities, which Python's decoder returns for
      the literals [NaN] and [Infinity] and for a number beyond the range
      of [float], are not among the documents of the model.  Numbers are
      compared by their exact values, as Python compares them.
    - A [string] is a sequence of code points below 256.
    - A Python exception is a value of [exn]; code that can raise returns a
      [result].
    - The dictionaries the script builds with a fixed set of keys (one
      per-model entry, the daily summary, the event envelope) are records. *)

From Stdlib Require Import PrimFloat SpecFloat FloatOps.
From Stdlib Require Import ZArith QArith Qcanon String Ascii List Sorted Permutation Lia ZifyBool.
From Equations.Prop Require Import Equations.
From stdpp Require Import base option list sorting gmap strings numbers.

Open Scope string_scope.
Open Scope Z_scope.
Open Scope list_scope.

(** ** Python values *)

Module Py.

(** A [float] of a JSON document: neither NaN nor an infinity. *)
Record finite_float : Type := {
  bits : float;
  bits_finite : is_finite bits = true
}.

#[warnings="-register-all"]
Inductive json : Type :=
| JNull
| JBool (b : bool)
| JInt (z : Z)
| JFloat (x : finite_float)
| JStr (s : string)
| JArr (items : list json)
| JObj (fields : gmap string json).

(** Failure modes of [requests]: they are all subclasses of
    [requests.RequestException].  [ConnectionFailed] stands for the
    exceptions of a call that gets no response. *)
Inductive request_failure : Type :=
| ConnectionFailed
| HTTPError (status : Z)
| JSONDecodeError.

Inductive exn : Type :=
| KeyError (key : string)
| TypeError
| AttributeError
| ValueError
| OverflowError
| IndexError
| RequestException (why : request_failure)
| ApiError (message : string) (detail : json).

Inductive result (A : Type) : Type :=
| Ok (a : A)
| Raise (e : exn).
Arguments Ok {A} a.
Arguments Raise {A} e.

Definition bind {A B} (r : result A) (k : A -> result B) : result B :=
  match r with
  | Ok a => k a
  | Raise e => Raise e
  end.

(** [[f x for x in xs]], stopping at the first exception. *)
Fixpoint traverse {A B} (f : A -> result B) (xs : list A) : result (list B) :=
  match xs with
  | [] => Ok []
  | x :: rest =>
      bind (f x) (fun y => bind (traverse f rest) (fun ys => Ok (y :: ys)))
  end.

(** The value of an [int] or of a [float], as Python computes with it. *)
Inductive number : Type :=
| Int (z : Z)
| Float (f : float).

(** The rational number that a finite float stands for. *)
Definition float_value (f : float) : Qc :=
  match Prim2SF f with
  | S754_finite negative m e =>
      let q := (inject_Z (Z.pos m) * Qpower 2 e)%Q in
      Q2Qc (if negative then - q else q)%Q
  | _ => 0%Qc
  end.

(** The operand that a value is in an addition: [bool] is a subclass of
    [int]. *)
Definition operand (v : json) : option number :=
  match v with
  | JInt z => Some (Int z)
  | JBool true => Some (Int 1)
  | JBool false => Some (Int 0)
  | JFloat x => Some (Float (bits x))
  | _ => None
  end.

(** The exact value of a number.  Python compares an [int] with a [float]
    by their exact values, without converting either. *)
Definition as_number (v : json) : option Qc :=
  match operand v with
  | Some (Int z) => Some (Q2Qc (inject_Z z))
  | Some (Float f) => Some (float_value f)
  | None => None
  end.

(** [bool(v)] *)
Definition truthy (v : json) : bool :=
  match v with
  | JNull => false
  | JBool b => b
  | JInt z => negb (z =? 0)
  | JFloat x => negb (is_zero (bits x))
  | JStr s => negb (bool_decide (s = ""))
  | JArr items => match items with [] => false | _ => true end
  | JObj fields => negb (Nat.eqb (size fields) 0)
  end.

(** [v[key]] for a string key. *)
Definition getitem (v : json) (key : string) : result json :=
  match v with
  | JObj fields =>
      match fields !! key with
      | Some x => Ok x
      | None => Raise (KeyError key)
      end
  | _ => Raise TypeError
  end.

(** [v.get(key, dflt)] *)
Definition get (v : json) (key : string) (dflt : json) : result json :=
  match v with
  | JObj fields => Ok (default dflt (fields !! key))
  | _ => Raise AttributeError
  end.

(** [iter(v)]: a list yields its elements, a dict its keys, a string its
    characters.  The order in which a dict yields its keys is not
    recorded by [gmap]. *)
Definition iter (v : json) : result (list json) :=
  match v with
  | JArr items => Ok items
  | JObj fields => Ok (JStr <$> (map_to_list fields).*1)
  | JStr s => Ok ((fun c => JStr (String c EmptyString)) <$> list_ascii_of_string s)
  | _ => Raise TypeError
  end.

(** [len(v)] *)
Definition len (v : json) : result nat :=
  match v with
  | JArr items => Ok (length items)
  | JObj fields => Ok (size fields)
  | JStr s => Ok (String.length s)
  | _ => Raise TypeError
  end.

(** [float(z)]: the nearest float, ties to the even one, and
    [OverflowError] when that is beyond the largest float. *)
Definition to_float (z : Z) : result float :=
  let f := SF2Prim (binary_normalize prec emax z 0 false) in
  if is_infinity f then Raise OverflowError else Ok f.

(** [acc + v] with a number on the left.  Two [int]s are added exactly;
    when one operand is a [float] the other is converted to [float] and
    the sum is rounded. *)
Definition add (acc : number) (v : json) : result number :=
  match operand v with
  | Some (Int b) =>
      match acc with
      | Int a => Ok (Int (a + b))
      | Float f => bind (to_float b) (fun g => Ok (Float (f + g)%float))
      end
  | Some (Float g) =>
      match acc with
      | Int a => bind (to_float a) (fun f => Ok (Float (f + g)%float))
      | Float f => Ok (Float (f + g)%float)
      end
  | None => Raise TypeError
  end.

Fixpoint sum_from {A} (acc : number) (f : A -> result json) (xs : list A)
  : result number :=
  match xs with
  | [] => Ok acc
  | x :: rest => bind (f x) (fun v => bind (add acc v) (fun acc' => sum_from acc' f rest))
  end.

(** [sum(f(x) for x in xs)]: the items are added from left to right to
    the [int] [0], each addition rounded on its own.  This is the sum of
    CPython up to version 3.11; later versions carry a correction term
    through a run of floats. *)
Definition sum {A} (f : A -> result json) (xs : list A) : result number :=
  sum_from (Int 0) f xs.

(** [p < q] on numbers. *)
Definition ltb (p q : Qc) : bool :=
  match (p ?= q)%Qc with Lt => true | _ => false end.

End Py.

Import Py.

Notation "'let*' x ':=' r 'in' k" := (Py.bind r (fun x => k))
  (at level 10, x name, r at level 100, k at level 200).

(** ** Aggregator *)

(** One entry of the [models] list (lines 77-86). *)
Record ModelBreakdown : Type := {
  name : json;
  cost : json;
  requests : json;
  prompt_tokens : json;
  completion_tokens : json;
  reasoning_tokens : json;
  byok_usage : json;
  provider : json
}.

(** The dictionary returned by [transform_activity_data]. *)
Record DailySummary : Type := {
  date : string;
  total_cost : number;
  total_requests : number;
  total_prompt_tokens : number;
  total_completion_tokens : number;
  total_reasoning_tokens : number;
  model_count : nat;
  models : list ModelBreakdown
}.

(** The body of the loop of lines 76-87: the dictionary built from one
    item.  The entries are evaluated in the order they are written. *)
Definition project_model (item : json) : result ModelBreakdown :=
  let* fallback := get item "model" (JStr "") in
  let* name_ := get item "model_permaslug" fallback in
  let* cost_ := getitem item "usage" in
  let* requests_ := getitem item "requests" in
  let* prompt_ := getitem item "prompt_tokens" in
  let* completion_ := getitem item "completion_tokens" in
  let* reasoning_ := get item "reasoning_tokens" (JInt 0) in
  let* byok_ := get item "byok_usage_inference" (JInt 0) in
  let* provider_ := getitem item "provider_name" in
  Ok {| name := name_; cost := cost_; requests := requests_;
        prompt_tokens := prompt_; completion_tokens := completion_;
        reasoning_tokens := reasoning_; byok_usage := byok_;
        provider := provider_ |}.

(** The sort key [x["cost"]] read as a number. *)
Definition cost_number (m : ModelBreakdown) : Qc :=
  default 0%Qc (as_number (cost m)).

(** [list.sort(key=..., reverse=True)] is a stable sort into descending key
    order: an element stays behind every element with a strictly greater
    key, and equal keys keep the order they had.  It is written here as an
    insertion sort. *)
Fixpoint insert_desc {A} (key : A -> Qc) (x : A) (l : list A) : list A :=
  match l with
  | [] => [x]
  | y :: rest =>
      if Py.ltb (key x) (key y) then y :: insert_desc key x rest
      else x :: y :: rest
  end.

Definition sort_desc {A} (key : A -> Qc) (l : list A) : list A :=
  foldr (insert_desc key) [] l.

(** Line 90.  The keys are compared with [<], defined between any two
    numbers; keys of other types are rejected here with [TypeError].  No
    such key reaches this line, because line 69 has already added up the
    same values (see [transform_costs_numeric]). *)
Definition sort_models (ms : list ModelBreakdown) : result (list ModelBreakdown) :=
  if forallb (fun m => bool_decide (is_Some (as_number (cost m)))) ms
  then Ok (sort_desc cost_number ms)
  else Raise TypeError.

Definition transform_activity_data (raw_data : json) (date_ : string)
  : result DailySummary :=
  if negb (truthy raw_data) then
    Ok {| date := date_; total_cost := Int 0; total_requests := Int 0;
          total_prompt_tokens := Int 0; total_completion_tokens := Int 0;
          total_reasoning_tokens := Int 0; model_count := 0%nat; models := [] |}
  else
    let* items := iter raw_data in
    let* total_cost_ := Py.sum (fun item => getitem item "usage") items in
    let* total_requests_ := Py.sum (fun item => getitem item "requests") items in
    let* total_prompt_ := Py.sum (fun item => getitem item "prompt_tokens") items in
    let* total_completion_ := Py.sum (fun item => getitem item "completion_tokens") items in
    let* total_reasoning_ :=
      Py.sum (fun item => get item "reasoning_tokens" (JInt 0)) items in
    let* unsorted := traverse project_model items in
    let* models_ := sort_models unsorted in
    Ok {| date := date_; total_cost := total_cost_; total_requests := total_requests_;
          total_prompt_tokens := total_prompt_;
          total_completion_tokens := total_completion_;
          total_reasoning_tokens := total_reasoning_;
          model_count := length models_; models := models_ |}.

(** ** Date range planner *)

(** A [datetime] as [strptime] with the format [%Y-%m-%d] builds it: the
    time of day is midnight and is left out. *)
Record datetime : Type := { year : Z; month : Z; day : Z }.

Definition MINYEAR : Z := 1.
Definition MAXYEAR : Z := 9999.

Definition is_leap (y : Z) : bool :=
  (y mod 4 =? 0) && (negb (y mod 100 =? 0) || (y mod 400 =? 0)).

Definition days_in_month (y m : Z) : Z :=
  if m =? 2 then (if is_leap y then 29 else 28)
  else if (m =? 4) || (m =? 6) || (m =? 9) || (m =? 11) then 30
  else 31.

(** The check made by the [datetime] constructor. *)
Definition valid_date (y m d : Z) : bool :=
  (MINYEAR <=? y) && (y <=? MAXYEAR) && (1 <=? m) && (m <=? 12)
  && (1 <=? d) && (d <=? days_in_month y m).

(** The decimal digit that a character is.  The patterns of [strptime]
    match a digit with [\d], which for code points below 256 is one of
    [0] to [9]. *)
Definition digit_of (c : ascii) : option Z :=
  let n := Z.of_N (N_of_ascii c) in
  if (48 <=? n) && (n <=? 57) then Some (n - 48) else None.

Definition char_of_digit (n : Z) : ascii := ascii_of_N (Z.to_N (48 + n)).

Definition two_digits (a b : ascii) : option Z :=
  match digit_of a, digit_of b with
  | Some x, Some y => Some (10 * x + y)
  | _, _ => None
  end.

Definition nonzero_digit (a : ascii) : option Z :=
  match digit_of a with
  | Some x => if 1 <=? x then Some x else None
  | None => None
  end.

(** [%Y] is the pattern [\d\d\d\d]. *)
Definition parse_year (cs : list ascii) : option (Z * list ascii) :=
  match cs with
  | a :: b :: c :: d :: rest =>
      match two_digits a b, two_digits c d with
      | Some hi, Some lo => Some (100 * hi + lo, rest)
      | _, _ => None
      end
  | _ => None
  end.

(** [%m] is the pattern [1[0-2]|0[1-9]|[1-9]]; the format continues with a
    literal [-], which tells a month of one digit from a month of two. *)
Definition parse_month (cs : list ascii) : option (Z * list ascii) :=
  match cs with
  | a :: b :: rest =>
      if Ascii.eqb b "-" then
        match nonzero_digit a with
        | Some m => Some (m, rest)
        | None => None
        end
      else
        match rest with
        | c :: rest' =>
            if Ascii.eqb c "-" then
              match two_digits a b with
              | Some m => if (1 <=? m) && (m <=? 12) then Some (m, rest') else None
              | None => None
              end
            else None
        | [] => None
        end
  | _ => None
  end.

(** [%d] is the pattern [3[0-1]|[1-2]\d|0[1-9]|[1-9]| [1-9]]; it ends the
    format, and text left over after the match is an error. *)
Definition parse_day (cs : list ascii) : option Z :=
  match cs with
  | [a] => nonzero_digit a
  | [a; b] =>
      match two_digits a b with
      | Some d => if (1 <=? d) && (d <=? 31) then Some d else None
      | None => if Ascii.eqb a " "%char then nonzero_digit b else None
      end
  | _ => None
  end.

Definition parse_ymd (cs : list ascii) : option (Z * Z * Z) :=
  match parse_year cs with
  | Some (y, "-"%char :: rest) =>
      match parse_month rest with
      | Some (m, rest') =>
          match parse_day rest' with
          | Some d => Some (y, m, d)
          | None => None
          end
      | None => None
      end
  | _ => None
  end.

(** [datetime.strptime(s, '%Y-%m-%d')]: text that does not match the
    format, and a match that is not a date of the calendar, raise
    [ValueError]. *)
Definition strptime (s : string) : result datetime :=
  match parse_ymd (list_ascii_of_string s) with
  | Some (y, m, d) =>
      if valid_date y m d then Ok {| year := y; month := m; day := d |}
      else Raise ValueError
  | None => Raise ValueError
  end.

Definition pad2 (n : Z) : list ascii :=
  [char_of_digit (n / 10); char_of_digit (n mod 10)].

Definition pad4 (n : Z) : list ascii :=
  pad2 (n / 100) ++ pad2 (n mod 100).

(** What [strftime] leaves to the platform it runs on: whether [%Y] pads
    the years below 1000 with zeros to four digits.  The C library of
    Linux does not, and an interpreter that hands [%Y] to it writes the
    year 999 as [999]; other platforms, and interpreters that pad the year
    themselves, write [0999]. *)
Class Platform : Type := { pads_year : bool }.

(** [%Y] *)
Definition year_text `{Platform} (y : Z) : list ascii :=
  if pads_year then pad4 y
  else if y <? 10 then [char_of_digit y]
  else if y <? 100 then pad2 y
  else if y <? 1000 then char_of_digit (y / 100) :: pad2 (y mod 100)
  else pad4 y.

(** [d.strftime('%Y-%m-%d')] *)
Definition strftime `{Platform} (d : datetime) : string :=
  string_of_list_ascii
    (year_text (year d) ++ "-"%char :: pad2 (month d) ++ "-"%char :: pad2 (day d)).

(** [d + timedelta(days=1)]: the next day of the calendar, and
    [OverflowError] past the last day of [MAXYEAR]. *)
Definition add_one_day (d : datetime) : result datetime :=
  if day d <? days_in_month (year d) (month d) then
    Ok {| year := year d; month := month d; day := day d + 1 |}
  else if month d <? 12 then
    Ok {| year := year d; month := month d + 1; day := 1 |}
  else if year d <? MAXYEAR then
    Ok {| year := year d + 1; month := 1; day := 1 |}
  else Raise OverflowError.

(** [d - timedelta(days=1)] *)
Definition sub_one_day (d : datetime) : result datetime :=
  if 1 <? day d then
    Ok {| year := year d; month := month d; day := day d - 1 |}
  else if 1 <? month d then
    Ok {| year := year d; month := month d - 1;
          day := days_in_month (year d) (month d - 1) |}
  else if MINYEAR <? year d then
    Ok {| year := year d - 1; month := 12; day := 31 |}
  else Raise OverflowError.

(** [a <= b] *)
Definition dt_leb (a b : datetime) : bool :=
  (year a <? year b)
  || ((year a =? year b)
      && ((month a <? month b)
          || ((month a =? month b) && (day a <=? day b)))).

(** A bound on the iterations the loop of lines 134-136 has left. *)
Definition remaining (current end_ : datetime) : nat :=
  Z.to_nat (512 * (year end_ + 1 - year current)
            + 32 * Z.max 0 (12 - month current)
            + Z.max 0 (31 - day current)).

(** [inspect x] keeps the equation between [x] and the case it is matched
    with. *)
Definition inspect {A : Type} (x : A) : { y : A | x = y } := exist _ x eq_refl.

(** The loop of lines 134-136, with [dates] the list built so far. *)
Equations? range_loop `{Platform} (current end_ : datetime) (dates : list string)
  : result (list string) by wf (remaining current end_) lt :=
range_loop current end_ dates with inspect (dt_leb current end_) := {
  | exist _ true Hle with inspect (add_one_day current) := {
      | exist _ (Ok next) Hnext =>
          range_loop next end_ (dates ++ [strftime current]);
      | exist _ (Raise e) _ => Raise e };
  | exist _ false _ => Ok dates }.
Proof.
  clear range_loop. revert Hle Hnext. unfold dt_leb, add_one_day, remaining.
  intros Hle Hnext.
  assert (days_in_month (year current) (month current) <= 31)
    by (unfold days_in_month; repeat case_match; lia).
  destruct (Z.ltb_spec (day current) (days_in_month (year current) (month current)));
    [|destruct (Z.ltb_spec (month current) 12);
      [|destruct (Z.ltb_spec (year current) MAXYEAR)]];
    inversion Hnext; subst; cbn [year month day]; lia.
Qed.

(** [end_date] is [None] when the argument is left out. *)
Definition parse_date_range `{Platform} (start_date : string)
  (end_date : option string) : result (list string) :=
  let* start := strptime start_date in
  match end_date with
  | Some e =>
      if negb (bool_decide (e = "")) then
        let* end_ := strptime e in
        range_loop start end_ []
      else Ok [strftime start]
  | None => Ok [strftime start]
  end.

(** ** The outside world *)

(** The JSON body posted to PostHog (lines 110-116). *)
Record Payload : Type := {
  api_key : string;
  event : string;
  distinct_id : string;
  properties : DailySummary;
  timestamp : string
}.

(** What [requests] hands back: [body] is [None] when the text of the
    response is not a JSON document. *)
Record http_response : Type := { status_code : Z; body : option json }.

(** What becomes of a call of [requests.get] or [requests.post]: a
    response, or a [RequestException] raised by the call itself (no
    connection, a timeout, a body that [requests] cannot send). *)
Inductive http_outcome : Type :=
| NoResponse
| Response (r : http_response).

(** One constructor per [print] of the script, with the values it
    interpolates.  [MsgProcessed] holds the total cost as the float that
    [:.2f] writes with two decimals. *)
Inductive message : Type :=
| MsgFetching (date_ : string)
| MsgFound (records : nat)
| MsgProcessed (total : float) (count : nat)
| MsgSent
| MsgNetworkError (date_ : string) (e : exn)
| MsgError (date_ : string) (e : exn)
| MsgMissingEnv
| MsgRequiredEnv
| MsgRange (first last : string) (days : nat)
| MsgSpecific (date_ : string)
| MsgYesterday (date_ : string)
| MsgSkipping (date_ : string)
| MsgSummary (success_count total : nat).

(** What the script does to the world: a line printed, a call of
    [requests.get], a call of [requests.post]. *)
Inductive io_event : Type :=
| Printed (m : message)
| HttpGet (url : string) (headers params : list (string * string))
| HttpPost (url : string) (payload : Payload).

(** The result of running a piece of the script from some state of the
    world: its value or exception, the world it leaves, and the prints and
    requests it made, oldest first. *)
Record run (World A : Type) : Type := {
  value : result A;
  after : World;
  emitted : list io_event
}.
Arguments value {World A} r.
Arguments after {World A} r.
Arguments emitted {World A} r.

Definition M (World A : Type) : Type := World -> run World A.

Definition ret {World A} (a : A) : M World A :=
  fun w => {| value := Ok a; after := w; emitted := [] |}.

Definition raise {World A} (e : exn) : M World A :=
  fun w => {| value := Raise e; after := w; emitted := [] |}.

Definition lift {World A} (r : result A) : M World A :=
  fun w => {| value := r; after := w; emitted := [] |}.

Definition mbind {World A B} (m : M World A) (k : A -> M World B) : M World B :=
  fun w =>
    let r := m w in
    match value r with
    | Ok a =>
        let r' := k a (after r) in
        {| value := value r'; after := after r'; emitted := emitted r ++ emitted r' |}
    | Raise e => {| value := Raise e; after := after r; emitted := emitted r |}
    end.

(** [try: m  except Exception as e: handler e] *)
Definition try_except {World A} (m : M World A) (handler : exn -> M World A)
  : M World A :=
  fun w =>
    let r := m w in
    match value r with
    | Ok a => r
    | Raise e =>
        let r' := handler e (after r) in
        {| value := value r'; after := after r'; emitted := emitted r ++ emitted r' |}
    end.

Definition print {World} (m : message) : M World unit :=
  fun w => {| value := Ok tt; after := w; emitted := [Printed m] |}.

Notation "'let!' x ':=' m 'in' k" := (mbind m (fun x => k))
  (at level 10, x name, m at level 100, k at level 200).
Notation "m ';;' k" := (mbind m (fun _ => k))
  (at level 100, k at level 200, right associativity).

(** [response.raise_for_status()] *)
Definition raise_for_status (r : http_response) : result unit :=
  if (400 <=? status_code r) && (status_code r <? 600)
  then Raise (RequestException (HTTPError (status_code r)))
  else Ok tt.

(** [response.json()] *)
Definition response_json (r : http_response) : result json :=
  match body r with
  | Some j => Ok j
  | None => Raise (RequestException JSONDecodeError)
  end.

(** [v == s] for a string [s]. *)
Definition is_str (v : json) (s : string) : bool :=
  match v with
  | JStr x => bool_decide (x = s)
  | _ => false
  end.

(** [key in container] for a string [key]. *)
Definition contains (container : json) (key : string) : result bool :=
  match container with
  | JObj fields => Ok (match fields !! key with Some _ => true | None => false end)
  | JArr items => Ok (existsb (fun v => is_str v key) items)
  | JStr s => Ok (match index 0 key s with Some _ => true | None => false end)
  | _ => Raise TypeError
  end.

Definition is_request_exception (e : exn) : bool :=
  match e with RequestException _ => true | _ => false end.

(** [f"{total:.2f}"]: the total is converted to [float] to be written with
    two decimals; an [int] beyond the range of [float] raises
    [OverflowError]. *)
Definition format_cost (total : number) : result float :=
  match total with
  | Int z => to_float z
  | Float f => Ok f
  end.

(** [dates[0]] and [dates[-1]] *)
Definition first_item (dates : list string) : result string :=
  match dates with
  | [] => Raise IndexError
  | d :: _ => Ok d
  end.

Definition last_item (dates : list string) : result string :=
  match list.last dates with
  | Some d => Ok d
  | None => Raise IndexError
  end.

(** The command line, as [argparse] returns it. *)
Record Args : Type := {
  arg_date : option string;
  arg_start_date : option string;
  arg_end_date : option string
}.

(** The three environment variables, as [os.getenv] returns them. *)
Record Env : Type := {
  OPENROUTER_API_KEY : option string;
  POSTHOG_API_KEY : option string;
  POSTHOG_HOST : option string
}.

(** [bool(s)] for an optional string: [None] and [""] are false. *)
Definition given (s : option string) : bool :=
  match s with
  | Some x => negb (bool_decide (x = ""))
  | None => false
  end.

(** ** Fetcher, sender and driver *)

Section Driver.

Context {World : Type} {platform : Platform}.

(** What the world makes of a call of [requests.get] and of a call of
    [requests.post], and the clock. *)
Variable http_get :
  string -> list (string * string) -> list (string * string) ->
  World -> http_outcome * World.
Variable http_post : string -> Payload -> World -> http_outcome * World.
Variable utc_now : World -> datetime.

(** [requests.get(url, headers=headers, params=params)] *)
Definition requests_get (url : string) (headers params : list (string * string))
  : M World http_response :=
  fun w =>
    let '(o, w') := http_get url headers params w in
    {| value := match o with
                | Response r => Ok r
                | NoResponse => Raise (RequestException ConnectionFailed)
                end;
       after := w';
       emitted := [HttpGet url headers params] |}.

(** [requests.post(url, json=payload)] *)
Definition requests_post (url : string) (payload : Payload)
  : M World http_response :=
  fun w =>
    let '(o, w') := http_post url payload w in
    {| value := match o with
                | Response r => Ok r
                | NoResponse => Raise (RequestException ConnectionFailed)
                end;
       after := w';
       emitted := [HttpPost url payload] |}.

Definition get_yesterday : M World string :=
  fun w => lift (let* yesterday := sub_one_day (utc_now w) in
                 Ok (strftime yesterday)) w.

Definition fetch_openrouter_activity (api_key_ date_ : string) : M World json :=
  let url := "https://openrouter.ai/api/v1/activity" in
  let headers := [("Authorization", ("Bearer " ++ api_key_)%string)] in
  let params := [("date", date_)] in
  let! response := requests_get url headers params in
  lift (raise_for_status response) ;;
  let! data := lift (response_json response) in
  let! has_error := lift (contains data "error") in
  if (has_error : bool) then
    let! err := lift (getitem data "error") in
    raise (ApiError "OpenRouter API error" err)
  else lift (get data "data" (JArr [])).

Definition send_to_posthog (api_key_ host : string) (event_data : DailySummary)
  (date_ : string) : M World unit :=
  let url := (host ++ "/i/v0/e/")%string in
  let timestamp_ := (date_ ++ "T23:30:00Z")%string in
  let payload :=
    {| api_key := api_key_;
       event := "openrouter_daily_activity";
       distinct_id := "enchanted_github_actions";
       properties := event_data;
       timestamp := timestamp_ |} in
  let! response := requests_post url payload in
  lift (raise_for_status response) ;;
  let! result_ := lift (response_json response) in
  let! status := lift (get result_ "status" JNull) in
  if negb (is_str status "Ok") then raise (ApiError "PostHog API error" result_)
  else ret tt.

(** The [try] block of [sync_date] (lines 148-155). *)
Definition sync_steps (openrouter_key posthog_key posthog_host date_ : string)
  : M World unit :=
  let! raw_data := fetch_openrouter_activity openrouter_key date_ in
  let! found := lift (len raw_data) in
  print (MsgFound found) ;;
  let! event_data := lift (transform_activity_data raw_data date_) in
  let! shown := lift (format_cost (total_cost event_data)) in
  print (MsgProcessed shown (model_count event_data)) ;;
  send_to_posthog posthog_key posthog_host event_data date_ ;;
  print MsgSent.

Definition sync_date (openrouter_key posthog_key posthog_host date_ : string)
  : M World unit :=
  print (MsgFetching date_) ;;
  try_except (sync_steps openrouter_key posthog_key posthog_host date_)
    (fun e =>
       print (if is_request_exception e then MsgNetworkError date_ e
              else MsgError date_ e) ;;
       raise e).

(** The loop of lines 194-200. *)
Fixpoint sync_all (openrouter_key posthog_key posthog_host : string)
  (dates : list string) (success_count : nat) : M World nat :=
  match dates with
  | [] => ret success_count
  | date_ :: rest =>
      let! success_count' :=
        try_except
          (sync_date openrouter_key posthog_key posthog_host date_ ;;
           ret (S success_count))
          (fun _ => print (MsgSkipping date_) ;; ret success_count) in
      sync_all openrouter_key posthog_key posthog_host rest success_count'
  end.

(** Lines 183-191: the dates to sync. *)
Definition plan_dates (args : Args) : M World (list string) :=
  if given (arg_start_date args) then
    let! dates := lift (parse_date_range (default "" (arg_start_date args))
                          (arg_end_date args)) in
    let! first := lift (first_item dates) in
    let! last := lift (last_item dates) in
    print (MsgRange first last (length dates)) ;;
    ret dates
  else if given (arg_date args) then
    print (MsgSpecific (default "" (arg_date args))) ;;
    ret [default "" (arg_date args)]
  else
    let! yesterday := get_yesterday in
    print (MsgYesterday yesterday) ;;
    ret [yesterday].

(** Lines 193-202: the loop and the summary it ends with. *)
Definition run_dates (openrouter_key posthog_key posthog_host : string)
  (dates : list string) : M World unit :=
  let! success_count :=
    sync_all openrouter_key posthog_key posthog_host dates 0%nat in
  print (MsgSummary success_count (length dates)).

(** [main], with the exit status of the process as its value: [1] for
    [sys.exit(1)], [0] when it returns, and an exception when one is not
    caught. *)
Definition main (args : Args) (env : Env) : M World Z :=
  if given (OPENROUTER_API_KEY env) && given (POSTHOG_API_KEY env)
     && given (POSTHOG_HOST env) then
    let openrouter_key := default "" (OPENROUTER_API_KEY env) in
    let posthog_key := default "" (POSTHOG_API_KEY env) in
    let posthog_host := default "" (POSTHOG_HOST env) in
    let! dates := plan_dates args in
    run_dates openrouter_key posthog_key posthog_host dates ;;
    ret 0
  else
    print MsgMissingEnv ;;
    print MsgRequiredEnv ;;
    ret 1.

End Driver.

(** * Vocabulary of the properties *)

(** ** Aggregator *)

(** The summary of a day without records (lines 58-67). *)
Definition empty_summary (date_ : string) : DailySummary :=
  {| date := date_; total_cost := Int 0; total_requests := Int 0;
     total_prompt_tokens := Int 0; total_completion_tokens := Int 0;
     total_reasoning_tokens := Int 0; model_count := 0%nat; models := [] |}.

(** The display name of a record, as the data model describes it. *)
Definition display_name (fields : gmap string json) : json :=
  match fields !! "model_permaslug" with
  | Some slug => slug
  | None =>
      match fields !! "model" with
      | Some generic => generic
      | None => JStr ""
      end
  end.

(** [m] is the projection of the record [item] into the output shape. *)
Definition projection_of (item : json) (m : ModelBreakdown) : Prop :=
  exists fields,
    item = JObj fields
    /\ name m = display_name fields
    /\ fields !! "usage" = Some (cost m)
    /\ fields !! "requests" = Some (requests m)
    /\ fields !! "prompt_tokens" = Some (prompt_tokens m)
    /\ fields !! "completion_tokens" = Some (completion_tokens m)
    /\ reasoning_tokens m = default (JInt 0) (fields !! "reasoning_tokens")
    /\ byok_usage m = default (JInt 0) (fields !! "byok_usage_inference")
    /\ fields !! "provider_name" = Some (provider m).

(** The order of the sorted list: the cost of [a] is a number not below
    the cost of [b]. *)
Definition cost_ge (a b : ModelBreakdown) : Prop :=
  exists p q, as_number (cost a) = Some p /\ as_number (cost b) = Some q /\ (q <= p)%Qc.

Definition numeric_cost (m : ModelBreakdown) : Prop := is_Some (as_number (cost m)).

(** A record as the upstream API documents it: the four counters and the
    provider are present, the counters are numbers, and
    [reasoning_tokens], when present, is a number. *)
Definition activity_record (item : json) : Prop :=
  exists fields,
    item = JObj fields
    /\ (exists v, fields !! "usage" = Some v /\ is_Some (as_number v))
    /\ (exists v, fields !! "requests" = Some v /\ is_Some (as_number v))
    /\ (exists v, fields !! "prompt_tokens" = Some v /\ is_Some (as_number v))
    /\ (exists v, fields !! "completion_tokens" = Some v /\ is_Some (as_number v))
    /\ is_Some (as_number (default (JInt 0) (fields !! "reasoning_tokens")))
    /\ is_Some (fields !! "provider_name").

(** A value that Python adds as an [int]. *)
Definition integral (v : json) : Prop := exists z, operand v = Some (Int z).

(** The integer that such a value is. *)
Definition int_value (v : json) : Z :=
  match operand v with
  | Some (Int z) => z
  | _ => 0
  end.

(** The sum of a field whose values are integers. *)
Definition whole_sum {A} (field : A -> json) (l : list A) : Z :=
  foldr (fun x total => int_value (field x) + total) 0 l.

(** A record whose cost is a float and whose counters are integers. *)
Definition typed_record (item : json) : Prop :=
  exists fields,
    item = JObj fields
    /\ (exists x, fields !! "usage" = Some (JFloat x))
    /\ (exists z, fields !! "requests" = Some (JInt z))
    /\ (exists z, fields !! "prompt_tokens" = Some (JInt z))
    /\ (exists z, fields !! "completion_tokens" = Some (JInt z))
    /\ (exists z, default (JInt 0) (fields !! "reasoning_tokens") = JInt z)
    /\ is_Some (fields !! "provider_name").

(** ** Date range planner *)

Definition valid (d : datetime) : Prop :=
  valid_date (year d) (month d) (day d) = true.

(** [datetime.max], as far as the date goes. *)
Definition last_day : datetime := {| year := 9999; month := 12; day := 31 |}.

Definition dt_le (a b : datetime) : Prop := dt_leb a b = true.
Definition dt_lt (a b : datetime) : Prop := dt_leb b a = false.

(** [datetime.min], as far as the date goes. *)
Definition first_day : datetime := {| year := 1; month := 1; day := 1 |}.

(** The number that a run of decimal digits writes. *)
Definition decimal (cs : list ascii) : Z :=
  fold_left (fun n c => 10 * n + default 0 (digit_of c)) cs 0.

(** Each day of the list is followed by the day after it. *)
Definition consecutive (days : list datetime) : Prop :=
  forall i a b, days !! i = Some a -> days !! S i = Some b -> add_one_day a = Ok b.

(** ** Driver *)

(** The date a request to the activity endpoint asks for. *)
Definition requested_date (e : io_event) : option string :=
  match e with
  | HttpGet _ _ [(key, date_)] => if bool_decide (key = "date") then Some date_ else None
  | _ => None
  end.

(** The date a line of the log reports as skipped. *)
Definition skipped_date (e : io_event) : option string :=
  match e with
  | Printed (MsgSkipping date_) => Some date_
  | _ => None
  end.

(** The timestamp of an event posted to the ingestion endpoint. *)
Definition posted_timestamp (e : io_event) : option string :=
  match e with
  | HttpPost _ payload => Some (timestamp payload)
  | _ => None
  end.

Definition is_ok {A} (r : result A) : bool :=
  match r with Ok _ => true | Raise _ => false end.

(** The number of dates that were synced. *)
Definition successes (results : list (result unit)) : nat :=
  length (List.filter is_ok results).

(** The result of syncing each date in turn, each from the world the one
    before it has left, whatever its result was. *)
Fixpoint outcomes {World : Type}
  (http_get : string -> list (string * string) -> list (string * string) ->
              World -> http_outcome * World)
  (http_post : string -> Payload -> World -> http_outcome * World)
  (openrouter_key posthog_key posthog_host : string)
  (dates : list string) (w : World) : list (result unit) :=
  match dates with
  | [] => []
  | date_ :: rest =>
      let r := sync_date http_get http_post openrouter_key posthog_key
                 posthog_host date_ w in
      value r :: outcomes http_get http_post openrouter_key posthog_key
                   posthog_host rest (after r)
  end.

(** A computation that makes no request and prints nothing. *)
Definition silent {World A} (m : M World A) : Prop :=
  forall w, emitted (m w) = [].

(** A computation that emits nothing that [f] picks out. *)
Definition mute {World A E} (f : io_event -> option E) (m : M World A) : Prop :=
  forall w, omap f (emitted (m w)) = [].

(** The dates whose sync raised. *)
Fixpoint failed_dates (dates : list string) (results : list (result unit))
  : list string :=
  match dates, results with
  | date_ :: dates', r :: results' =>
      if is_ok r then failed_dates dates' results'
      else date_ :: failed_dates dates' results'
  | _, _ => []
  end.

(** A request that was posted: its address and its body. *)
Definition posted (e : io_event) : option (string * Payload) :=
  match e with
  | HttpPost url payload => Some (url, payload)
  | _ => None
  end.

(** The status of a response is not one that [raise_for_status] raises
    for. *)
Definition status_passes (r : http_response) : Prop :=
  status_code r < 400 \/ 600 <= status_code r.

(** The three settings are present and not empty (line 178). *)
Definition configured (env : Env) : bool :=
  given (OPENROUTER_API_KEY env) && given (POSTHOG_API_KEY env)
  && given (POSTHOG_HOST env).

(** A computation that, when it returns, has emitted [e] last. *)
Definition ends_with {World A} (e : io_event) (m : M World A) : Prop :=
  forall w a, value (m w) = Ok a -> list.last (emitted (m w)) = Some e.

(** ** Sample data *)

(** *** A day of four records *)

Definition record (fields : list (string * json)) : json := JObj (list_to_map fields).

(** A float of a document, with the evidence that it is finite. *)
Definition real (f : float) (finite : is_finite f = true) : json :=
  JFloat {| bits := f; bits_finite := finite |}.

Definition sample_day : list json :=
  [ record [("usage", real 3.5 eq_refl); ("requests", JInt 10);
            ("prompt_tokens", JInt 100); ("completion_tokens", JInt 50);
            ("provider_name", JStr "acme"); ("model", JStr "gpt-x")];
    record [("usage", real 4.5 eq_refl); ("requests", JInt 1);
            ("prompt_tokens", JInt 20); ("completion_tokens", JInt 5);
            ("reasoning_tokens", JInt 7);
            ("provider_name", JStr "acme"); ("model", JStr "gpt-y");
            ("model_permaslug", JStr "vendor/gpt-y-2025")];
    record [("usage", real 3.5 eq_refl); ("requests", JInt 3);
            ("prompt_tokens", JInt 30); ("completion_tokens", JInt 9);
            ("provider_name", JStr "other"); ("model", JStr "gpt-x")];
    record [("usage", JInt 0); ("requests", JInt 2);
            ("prompt_tokens", JInt 1); ("completion_tokens", JInt 1);
            ("byok_usage_inference", real 0.25 eq_refl);
            ("provider_name", JStr "other")] ].

(** *** A day whose costs cancel *)

(** A record that has only a cost to tell. *)
Definition charge (f : float) (finite : is_finite f = true) : json :=
  record [("usage", real f finite); ("requests", JInt 1);
          ("prompt_tokens", JInt 0); ("completion_tokens", JInt 0);
          ("provider_name", JStr "acme")].

(** A refund of 1e308, then two charges of 1e308; the floats are written
    in hexadecimal, as they are stored. *)
Definition swing_day : list json :=
  [ charge (-0x1.1ccf385ebc8ap+1023) eq_refl;
    charge 0x1.1ccf385ebc8ap+1023 eq_refl;
    charge 0x1.1ccf385ebc8ap+1023 eq_refl ].

(** *** A day with a cost too large for a float *)

Definition huge_day : list json :=
  [ record [("usage", JInt (10 ^ 400)); ("requests", JInt 1);
            ("prompt_tokens", JInt 0); ("completion_tokens", JInt 0);
            ("provider_name", JStr "acme")] ].

(** *** The platform of the examples *)

(** A C library that does not pad [%Y]. *)
#[export] Instance glibc : Platform := {| pads_year := false |}.

(** *** A three-day backfill in which the second event is refused *)

Definition demo_get (url : string) (headers params : list (string * string))
  (w : unit) : http_outcome * unit :=
  (Response {| status_code := 200;
               body := Some (record [("data", JArr sample_day)]) |}, w).

Definition demo_post (url : string) (payload : Payload) (w : unit)
  : http_outcome * unit :=
  (Response {| status_code := 200;
               body := Some (record [("status",
                        JStr (if bool_decide (timestamp payload = "2025-08-21T23:30:00Z")
                              then "Invalid" else "Ok"))]) |}, w).

Definition demo_clock (w : unit) : datetime :=
  {| year := 2025; month := 8; day := 26 |}.

Definition demo_env : Env :=
  {| OPENROUTER_API_KEY := Some "or-key"; POSTHOG_API_KEY := Some "ph-key";
     POSTHOG_HOST := Some "https://us.i.posthog.com" |}.

Definition backfill (start_date end_date : string) : Args :=
  {| arg_date := None; arg_start_date := Some start_date;
     arg_end_date := Some end_date |}.

(** *** Services that give one answer to every request *)

(** A service that gives the same answer to every request. *)
Definition answering_get (o : http_outcome) (url : string)
  (headers params : list (string * string)) (w : unit) : http_outcome * unit :=
  (o, w).

Definition answering_post (o : http_outcome) (url : string) (payload : Payload)
  (w : unit) : http_outcome * unit :=
  (o, w).

Definition error_answer : http_response :=
  {| status_code := 200;
     body := Some (record [("error", JStr "quota exceeded");
                           ("data", JArr sample_day)]) |}.

Definition busy_answer : http_response :=
  {| status_code := 503; body := Some (record [("data", JArr [])]) |}.

Definition only_date (text : string) : Args :=
  {| arg_date := Some text; arg_start_date := None; arg_end_date := None |}.

Definition no_arguments : Args :=
  {| arg_date := None; arg_start_date := None; arg_end_date := None |}.

Create HintDb silent.

(** * Properties *)

(** ** The [result] monad *)

Lemma bind_Ok {A B} (r : result A) (k : A -> result B) (b : B) :
  Py.bind r k = Ok b -> exists a, r = Ok a /\ k a = Ok b.
Proof. destruct r as [a|e]; simpl; [eauto | discriminate]. Qed.

Ltac bind_inv H :=
  let a := fresh "v" in
  let Ha := fresh "Hv" in
  apply bind_Ok in H; destruct H as (a & Ha & H).

Lemma traverse_length {A B} (f : A -> result B) xs ys :
  traverse f xs = Ok ys -> length ys = length xs.
Proof.
  revert ys. induction xs as [|x xs IH]; intros ys H; simpl in H.
  - by inversion H.
  - bind_inv H. bind_inv H. inversion H; subst. simpl. f_equal. by apply IH.
Qed.

Lemma traverse_Forall2 {A B} (f : A -> result B) xs ys :
  traverse f xs = Ok ys -> Forall2 (fun x y => f x = Ok y) xs ys.
Proof.
  revert ys. induction xs as [|x xs IH]; intros ys H; simpl in H.
  - inversion H. constructor.
  - bind_inv H. bind_inv H. inversion H; subst. constructor; auto.
Qed.

(** ** Sums *)

Lemma operand_numeric v : is_Some (operand v) -> is_Some (as_number v).
Proof. unfold as_number. intros [[z|f] ->]; eauto. Qed.

Lemma numeric_operand v : is_Some (as_number v) -> is_Some (operand v).
Proof.
  unfold as_number. destruct (operand v) as [[z|f]|]; eauto. by intros [? ?].
Qed.

Lemma to_float_Raise z e : to_float z = Raise e -> e = OverflowError.
Proof. unfold to_float. destruct (is_infinity _); [by intros [= <-]|discriminate]. Qed.

(** An addition that is defined has added a number. *)
Lemma add_Ok acc v t : add acc v = Ok t -> is_Some (as_number v).
Proof.
  unfold add. intros H. apply operand_numeric.
  destruct (operand v); [eauto|discriminate H].
Qed.

(** The addition of a number raises nothing but [OverflowError]. *)
Lemma add_Raise acc v e :
  is_Some (as_number v) -> add acc v = Raise e -> e = OverflowError.
Proof.
  intros [[b|g] Hn]%numeric_operand; unfold add; rewrite Hn;
    destruct acc as [a|f]; try discriminate.
  - destruct (to_float b) as [g|x] eqn:E; [discriminate|].
    intros [= <-]. by eapply to_float_Raise.
  - destruct (to_float a) as [f|x] eqn:E; [discriminate|].
    intros [= <-]. by eapply to_float_Raise.
Qed.

(** A sum that is defined has only added numbers. *)
Lemma sum_from_numeric {A} (g : A -> json) (l : list A) acc t :
  sum_from acc (fun x => Ok (g x)) l = Ok t ->
  Forall (fun x => is_Some (as_number (g x))) l.
Proof.
  revert acc. induction l as [|x l IH]; intros acc H; simpl in H.
  - constructor.
  - bind_inv H. constructor; [by eapply add_Ok|eauto].
Qed.

(** *** Sums of integers *)

Lemma add_integral a v : integral v -> add (Int a) v = Ok (Int (a + int_value v)).
Proof. intros [z Hz]. unfold add, int_value. by rewrite Hz. Qed.

(** Integers are added exactly. *)
Lemma sum_from_integral {A} (field : A -> json) l :
  Forall (fun x => integral (field x)) l ->
  forall a,
    sum_from (Int a) (fun x => Ok (field x)) l = Ok (Int (a + whole_sum field l)).
Proof.
  induction 1 as [|x l Hx _ IH]; intros a; simpl.
  - do 2 f_equal. lia.
  - rewrite (add_integral a _ Hx). simpl. rewrite IH. do 2 f_equal. lia.
Qed.

Lemma whole_sum_Permutation {A} (field : A -> json) l l' :
  l ≡ₚ l' -> whole_sum field l = whole_sum field l'.
Proof. induction 1; simpl; lia. Qed.

(** A sum of integers does not depend on their order. *)
Lemma sum_integral_Permutation {A} (field : A -> json) l l' :
  l ≡ₚ l' ->
  Forall (fun x => integral (field x)) l ->
  Py.sum (fun x => Ok (field x)) l' = Py.sum (fun x => Ok (field x)) l.
Proof.
  intros Hp Hl. unfold Py.sum.
  rewrite (sum_from_integral field l Hl).
  rewrite (sum_from_integral field l') by (by rewrite <- Hp).
  by rewrite (whole_sum_Permutation field l l' Hp).
Qed.

(** ** The stable descending sort *)

Lemma ltb_lt p q : Py.ltb p q = true <-> (p < q)%Qc.
Proof.
  unfold Py.ltb. rewrite Qclt_alt. destruct (p ?= q)%Qc; split; congruence.
Qed.

Lemma ltb_ge p q : Py.ltb p q = false <-> (q <= p)%Qc.
Proof.
  split.
  - intros H. apply Qcnot_lt_le. intros Hlt. apply ltb_lt in Hlt. congruence.
  - intros H. destruct (Py.ltb p q) eqn:E; [|done].
    apply ltb_lt in E. by apply Qcle_not_lt in H.
Qed.

Section Sort.

Context {A : Type} (key : A -> Qc).

Let descending (a b : A) : Prop := (key b <= key a)%Qc.

Lemma insert_desc_Permutation x l : insert_desc key x l ≡ₚ x :: l.
Proof.
  induction l as [|y l IH]; simpl; [done|].
  destruct (Py.ltb (key x) (key y)); [|done].
  rewrite IH. apply perm_swap.
Qed.

Lemma sort_desc_Permutation l : sort_desc key l ≡ₚ l.
Proof.
  induction l as [|x l IH]; simpl; [done|].
  by rewrite insert_desc_Permutation, IH.
Qed.

Lemma insert_desc_sorted x l :
  StronglySorted descending l -> StronglySorted descending (insert_desc key x l).
Proof.
  induction 1 as [|y l Hs IH Hall]; simpl.
  - repeat constructor.
  - destruct (Py.ltb (key x) (key y)) eqn:E.
    + constructor; [done|].
      rewrite insert_desc_Permutation. constructor; [|done].
      apply ltb_lt in E. unfold descending. by apply Qclt_le_weak.
    + apply ltb_ge in E. constructor; [by constructor|].
      constructor; [done|].
      eapply List.Forall_impl; [|exact Hall].
      intros z Hz. unfold descending in *. by eapply Qcle_trans.
Qed.

Lemma sort_desc_sorted l : StronglySorted descending (sort_desc key l).
Proof.
  induction l as [|x l IH]; simpl; [constructor|]. by apply insert_desc_sorted.
Qed.

(** Inserting an element leaves it in front of the elements that share
    its key. *)
Lemma insert_desc_filter k x l :
  filter (fun y => key y = k) (insert_desc key x l)
  = filter (fun y => key y = k) (x :: l).
Proof.
  induction l as [|y l IH]; simpl; [done|].
  destruct (Py.ltb (key x) (key y)) eqn:E; [|done].
  apply ltb_lt in E.
  rewrite (filter_cons _ y), IH, !filter_cons.
  repeat case_decide; subst; try done.
  exfalso. by apply (Qclt_not_eq _ _ E).
Qed.

Lemma sort_desc_stable k l :
  filter (fun y => key y = k) (sort_desc key l) = filter (fun y => key y = k) l.
Proof.
  induction l as [|x l IH]; simpl; [done|].
  by rewrite insert_desc_filter, !filter_cons, IH.
Qed.

End Sort.

(** ** Aggregator *)

Lemma project_model_Ok item m :
  project_model item = Ok m -> projection_of item m.
Proof.
  unfold project_model, projection_of, display_name. intros H.
  destruct item as [| | | | | |fields]; try discriminate H.
  exists fields. simpl in H.
  destruct (fields !! "usage") as [u|]; [|discriminate H].
  destruct (fields !! "requests") as [r|]; [|discriminate H].
  destruct (fields !! "prompt_tokens") as [p|]; [|discriminate H].
  destruct (fields !! "completion_tokens") as [c|]; [|discriminate H].
  destruct (fields !! "provider_name") as [pr|]; [|discriminate H].
  simpl in H. inversion H; subst; clear H. simpl.
  repeat split; reflexivity.
Qed.

Lemma project_model_defined fields :
  is_Some (fields !! "usage") -> is_Some (fields !! "requests") ->
  is_Some (fields !! "prompt_tokens") -> is_Some (fields !! "completion_tokens") ->
  is_Some (fields !! "provider_name") ->
  exists m, project_model (JObj fields) = Ok m.
Proof.
  intros [u Hu] [r Hr] [p Hp] [c Hc] [pr Hpr].
  unfold project_model. simpl. rewrite Hu, Hr, Hp, Hc, Hpr. simpl. eauto.
Qed.

(** A total over the items is the same total over their entries. *)
Lemma sum_from_projected (of_item : json -> result json)
  (field : ModelBreakdown -> json) items ps :
  (forall item m, project_model item = Ok m -> of_item item = Ok (field m)) ->
  traverse project_model items = Ok ps ->
  forall acc, sum_from acc of_item items = sum_from acc (fun m => Ok (field m)) ps.
Proof.
  intros Hfield. revert ps.
  induction items as [|item items IH]; intros ps H acc; simpl in H.
  - by inversion H.
  - bind_inv H. bind_inv H. inversion H; subst; clear H. simpl.
    rewrite (Hfield _ _ Hv). simpl.
    destruct (add acc (field v)); simpl; auto.
Qed.

Lemma sort_models_Ok ps ms :
  sort_models ps = Ok ms ->
  ms = sort_desc cost_number ps /\ Forall numeric_cost ps.
Proof.
  unfold sort_models. intros H.
  destruct (forallb _ ps) eqn:E; [|discriminate H].
  inversion H; subst. split; [done|].
  apply Forall_forall. intros m Hm.
  rewrite forallb_forall in E.
  apply (bool_decide_eq_true_1 _), E, Hm.
Qed.

(** What a successful call has computed. *)
Lemma transform_activity_data_Ok raw_data date_ s :
  transform_activity_data raw_data date_ = Ok s ->
  (truthy raw_data = false /\ s = empty_summary date_)
  \/ (truthy raw_data = true /\
      exists items ps,
        iter raw_data = Ok items
        /\ traverse project_model items = Ok ps
        /\ Forall numeric_cost ps
        /\ models s = sort_desc cost_number ps
        /\ model_count s = length (models s)
        /\ date s = date_
        /\ Py.sum (fun item => getitem item "usage") items = Ok (total_cost s)
        /\ Py.sum (fun item => getitem item "requests") items = Ok (total_requests s)
        /\ Py.sum (fun item => getitem item "prompt_tokens") items
           = Ok (total_prompt_tokens s)
        /\ Py.sum (fun item => getitem item "completion_tokens") items
           = Ok (total_completion_tokens s)
        /\ Py.sum (fun item => get item "reasoning_tokens" (JInt 0)) items
           = Ok (total_reasoning_tokens s)).
Proof.
  unfold transform_activity_data. intros H.
  destruct (truthy raw_data); simpl in H.
  - right. split; [done|].
    bind_inv H. rename v into items, Hv into Hitems.
    bind_inv H. rename v into t1, Hv into H1.
    bind_inv H. rename v into t2, Hv into H2.
    bind_inv H. rename v into t3, Hv into H3.
    bind_inv H. rename v into t4, Hv into H4.
    bind_inv H. rename v into t5, Hv into H5.
    bind_inv H. rename v into ps, Hv into Hps.
    bind_inv H. rename v into ms, Hv into Hms.
    apply sort_models_Ok in Hms as [-> Hnum].
    inversion H; subst; clear H. simpl.
    exists items, ps. repeat split; done.
  - left. split; [done|]. by inversion H.
Qed.

Lemma getitem_projected item m :
  project_model item = Ok m ->
  getitem item "usage" = Ok (cost m)
  /\ getitem item "requests" = Ok (requests m)
  /\ getitem item "prompt_tokens" = Ok (prompt_tokens m)
  /\ getitem item "completion_tokens" = Ok (completion_tokens m)
  /\ get item "reasoning_tokens" (JInt 0) = Ok (reasoning_tokens m).
Proof.
  intros H. apply project_model_Ok in H as (fields & -> & _ & Hu & Hr & Hp & Hc & Hre & _).
  simpl. rewrite Hu, Hr, Hp, Hc, Hre. done.
Qed.

Lemma traverse_defined {A B} (f : A -> result B) xs :
  Forall (fun x => exists y, f x = Ok y) xs -> exists ys, traverse f xs = Ok ys.
Proof.
  induction 1 as [|x xs [y Hy] _ [ys IH]]; simpl; [eauto|].
  rewrite Hy, IH. simpl. eauto.
Qed.

Lemma sort_models_defined ps :
  Forall numeric_cost ps -> sort_models ps = Ok (sort_desc cost_number ps).
Proof.
  intros H. unfold sort_models.
  replace (forallb _ ps) with true; [done|].
  symmetry. apply forallb_forall. intros m Hm.
  apply bool_decide_eq_true_2. rewrite List.Forall_forall in H. by apply H.
Qed.

(** The costs that line 90 compares are the values that line 69 has added
    up, so they are numbers. *)
Lemma transform_costs_numeric items ps total :
  Py.sum (fun item => getitem item "usage") items = Ok total ->
  traverse project_model items = Ok ps ->
  sort_models ps = Ok (sort_desc cost_number ps).
Proof.
  intros Hsum Hps. apply sort_models_defined.
  unfold Py.sum in Hsum.
  rewrite (sum_from_projected _ cost items ps) in Hsum; [|by intros item m Hm; apply getitem_projected in Hm as [? _]|done].
  by eapply (sum_from_numeric cost).
Qed.

Lemma projected_Forall2 items ps :
  traverse project_model items = Ok ps -> Forall2 projection_of items ps.
Proof.
  intros H. apply traverse_Forall2 in H.
  eapply List.Forall2_impl; [|exact H]. apply project_model_Ok.
Qed.

(** A total is the sum over the entries in the order of the records. *)
Lemma total_over_entries (of_item : json -> result json)
  (field : ModelBreakdown -> json) items ps total :
  (forall item m, project_model item = Ok m -> of_item item = Ok (field m)) ->
  traverse project_model items = Ok ps ->
  Py.sum of_item items = Ok total ->
  Py.sum (fun m => Ok (field m)) ps = Ok total.
Proof.
  intros Hfield Hps Hsum. unfold Py.sum in *.
  by rewrite <- (sum_from_projected of_item field items ps Hfield Hps).
Qed.

(** The entries before the sort and the five totals as sums over them. *)
Lemma transform_entries items date_ s :
  transform_activity_data (JArr items) date_ = Ok s ->
  exists ps,
    traverse project_model items = Ok ps
    /\ models s ≡ₚ ps
    /\ model_count s = length ps
    /\ Py.sum (fun m => Ok (cost m)) ps = Ok (total_cost s)
    /\ Py.sum (fun m => Ok (requests m)) ps = Ok (total_requests s)
    /\ Py.sum (fun m => Ok (prompt_tokens m)) ps = Ok (total_prompt_tokens s)
    /\ Py.sum (fun m => Ok (completion_tokens m)) ps = Ok (total_completion_tokens s)
    /\ Py.sum (fun m => Ok (reasoning_tokens m)) ps = Ok (total_reasoning_tokens s).
Proof.
  intros H. apply transform_activity_data_Ok in H as [[Hf ->]|[_ H]].
  - destruct items; [|discriminate Hf]. exists []. repeat split; done.
  - destruct H as (items' & ps & Hit & Hps & _ & Hm & Hcount & _ & H1 & H2 & H3 & H4 & H5).
    inversion Hit; subst items'. exists ps.
    assert (Hperm : models s ≡ₚ ps) by (rewrite Hm; apply sort_desc_Permutation).
    split; [done|]. split; [done|].
    split; [by rewrite Hcount, Hperm|].
    repeat split.
    + eapply total_over_entries; [|exact Hps|exact H1].
      intros item m Hi. by apply getitem_projected in Hi as (? & ? & ? & ? & ?).
    + eapply total_over_entries; [|exact Hps|exact H2].
      intros item m Hi. by apply getitem_projected in Hi as (? & ? & ? & ? & ?).
    + eapply total_over_entries; [|exact Hps|exact H3].
      intros item m Hi. by apply getitem_projected in Hi as (? & ? & ? & ? & ?).
    + eapply total_over_entries; [|exact Hps|exact H4].
      intros item m Hi. by apply getitem_projected in Hi as (? & ? & ? & ? & ?).
    + eapply total_over_entries; [|exact Hps|exact H5].
      intros item m Hi. by apply getitem_projected in Hi as (? & ? & ? & ? & ?).
Qed.

(** A total of integers is the sum over [models] in any order. *)
Lemma integral_total (field : ModelBreakdown -> json) ps ms total :
  ms ≡ₚ ps ->
  Py.sum (fun m => Ok (field m)) ps = Ok total ->
  Forall (fun m => integral (field m)) ms ->
  Py.sum (fun m => Ok (field m)) ms = Ok total.
Proof.
  intros Hperm Hsum Hint. rewrite <- Hsum.
  symmetry. by apply sum_integral_Permutation.
Qed.

(** C1, as the code has it.  The summary has [model_count] equal to the
    length of [models].  Each of its five totals is the sum of the field
    over the entries made of the records, added in the order of the
    records; [models] holds these entries in another order, that of their
    cost.  A total is the sum of the field over [models] when the values of
    the field are integers, which are added exactly. *)
Theorem summary_totals_match_models items date_ s :
  transform_activity_data (JArr items) date_ = Ok s ->
  model_count s = length (models s)
  /\ (exists entries,
        Forall2 projection_of items entries
        /\ models s ≡ₚ entries
        /\ Py.sum (fun m => Ok (cost m)) entries = Ok (total_cost s)
        /\ Py.sum (fun m => Ok (requests m)) entries = Ok (total_requests s)
        /\ Py.sum (fun m => Ok (prompt_tokens m)) entries
           = Ok (total_prompt_tokens s)
        /\ Py.sum (fun m => Ok (completion_tokens m)) entries
           = Ok (total_completion_tokens s)
        /\ Py.sum (fun m => Ok (reasoning_tokens m)) entries
           = Ok (total_reasoning_tokens s))
  /\ (Forall (fun m => integral (cost m)) (models s) ->
      Py.sum (fun m => Ok (cost m)) (models s) = Ok (total_cost s))
  /\ (Forall (fun m => integral (requests m)) (models s) ->
      Py.sum (fun m => Ok (requests m)) (models s) = Ok (total_requests s))
  /\ (Forall (fun m => integral (prompt_tokens m)) (models s) ->
      Py.sum (fun m => Ok (prompt_tokens m)) (models s) = Ok (total_prompt_tokens s))
  /\ (Forall (fun m => integral (completion_tokens m)) (models s) ->
      Py.sum (fun m => Ok (completion_tokens m)) (models s)
      = Ok (total_completion_tokens s))
  /\ (Forall (fun m => integral (reasoning_tokens m)) (models s) ->
      Py.sum (fun m => Ok (reasoning_tokens m)) (models s)
      = Ok (total_reasoning_tokens s)).
Proof.
  intros H.
  apply transform_entries in H as (ps & Hps & Hperm & Hcount & H1 & H2 & H3 & H4 & H5).
  split; [by rewrite Hcount, Hperm|].
  split.
  - exists ps. split; [by apply projected_Forall2|]. done.
  - repeat split; by apply integral_total with ps.
Qed.

Lemma sorted_numeric l :
  Forall numeric_cost l ->
  StronglySorted (fun a b => (cost_number b <= cost_number a)%Qc) l ->
  StronglySorted cost_ge l.
Proof.
  intros Hnum Hs. induction Hs as [|a l Hs IH Hall]; [constructor|].
  inversion Hnum as [|? ? [p Hp] Hrest]; subst.
  constructor; [by apply IH|].
  apply List.Forall_forall. intros b Hb.
  rewrite List.Forall_forall in Hall, Hrest.
  destruct (Hrest b Hb) as [q Hq]. specialize (Hall b Hb).
  exists p, q. unfold cost_number in Hall. rewrite Hp, Hq in Hall. done.
Qed.

Lemma filter_numeric k l :
  Forall numeric_cost l ->
  filter (fun m => as_number (cost m) = Some k) l
  = filter (fun m => cost_number m = k) l.
Proof.
  induction 1 as [|m l [q Hq] _ IH]; [done|].
  rewrite !filter_cons, IH. unfold cost_number. rewrite Hq. simpl.
  repeat case_decide; congruence.
Qed.

(** The entries of a summary, as they stood before the sort. *)
Lemma transform_models items date_ s :
  transform_activity_data (JArr items) date_ = Ok s ->
  exists ps, traverse project_model items = Ok ps
             /\ Forall numeric_cost ps
             /\ models s = sort_desc cost_number ps.
Proof.
  intros H. apply transform_activity_data_Ok in H as [[Hf ->]|[_ H]].
  - destruct items; [|discriminate Hf]. exists []. repeat split. constructor.
  - destruct H as (items' & ps & Hit & Hps & Hnum & Hm & _).
    inversion Hit; subst. eauto.
Qed.

(** C2. The [models] list of a summary is in descending order of cost, and
    entries of equal cost stand in the order of the records they come
    from. *)
Theorem models_sorted_by_cost_stable items date_ s :
  transform_activity_data (JArr items) date_ = Ok s ->
  StronglySorted cost_ge (models s)
  /\ exists ps,
       Forall2 projection_of items ps
       /\ forall k,
            filter (fun m => as_number (cost m) = Some k) (models s)
            = filter (fun m => as_number (cost m) = Some k) ps.
Proof.
  intros H. apply transform_models in H as (ps & Hps & Hnum & ->).
  assert (Hnum' : Forall numeric_cost (sort_desc cost_number ps))
    by (by rewrite sort_desc_Permutation).
  split.
  - apply sorted_numeric; [done|]. apply sort_desc_sorted.
  - exists ps. split; [by apply projected_Forall2|].
    intros k. rewrite !filter_numeric by done. apply sort_desc_stable.
Qed.

(** C6. For an empty list of records the aggregator returns the summary
    with every total zero, [model_count] zero and no models. *)
Theorem empty_input_zero_summary date_ :
  transform_activity_data (JArr []) date_
  = Ok {| date := date_; total_cost := Int 0; total_requests := Int 0;
          total_prompt_tokens := Int 0; total_completion_tokens := Int 0;
          total_reasoning_tokens := Int 0; model_count := 0%nat; models := [] |}.
Proof. reflexivity. Qed.

(** C9. The entries of a summary are, up to their order, the entries that
    [project_model] makes of the records, and the name of the entry made of
    a record is the record's [model_permaslug] when that key is present,
    otherwise its [model] when that key is present, otherwise the empty
    string. *)
Theorem model_name_fallback items date_ s :
  transform_activity_data (JArr items) date_ = Ok s ->
  exists ps,
    models s ≡ₚ ps
    /\ Forall2 (fun item m =>
         project_model item = Ok m
         /\ exists fields,
              item = JObj fields
              /\ name m = match fields !! "model_permaslug" with
                          | Some slug => slug
                          | None =>
                              match fields !! "model" with
                              | Some generic => generic
                              | None => JStr ""
                              end
                          end) items ps.
Proof.
  intros H. apply transform_models in H as (ps & Hps & _ & ->).
  exists ps. split; [apply sort_desc_Permutation|].
  apply traverse_Forall2 in Hps.
  eapply List.Forall2_impl; [|exact Hps].
  intros item m Hm. split; [done|].
  apply project_model_Ok in Hm as (fields & -> & Hname & _). by exists fields.
Qed.

(** C10. The [models] list is a permutation of the projections of the input
    records: one entry for each record, with the record's fields unchanged,
    whether or not records share a name. *)
Theorem models_permutation_of_projections items date_ s :
  transform_activity_data (JArr items) date_ = Ok s ->
  exists ps,
    Forall2 projection_of items ps
    /\ models s ≡ₚ ps
    /\ length (models s) = length items.
Proof.
  intros H. apply transform_models in H as (ps & Hps & _ & ->).
  exists ps. split; [by apply projected_Forall2|].
  split; [apply sort_desc_Permutation|].
  rewrite sort_desc_Permutation. by eapply traverse_length.
Qed.

(** On the sample day the counters are integers and the costs are not: the
    requests are the sum over [models], and the total cost is the sum in
    the order of the records. *)
Lemma summary_totals_match_models_witness :
  exists s,
    transform_activity_data (JArr sample_day) "2025-08-25" = Ok s
    /\ model_count s = length (models s)
    /\ Py.sum (fun m => Ok (requests m)) (models s) = Ok (total_requests s)
    /\ total_requests s = Int 16
    /\ total_cost s = Float 11.5.
Proof.
  eexists. split; [vm_compute; reflexivity|].
  match goal with
  | |- model_count ?s = _ /\ _ =>
      destruct (summary_totals_match_models sample_day "2025-08-25" s)
        as (Hcount & _ & _ & Hrequests & _); [vm_compute; reflexivity|]
  end.
  split; [exact Hcount|]. split; [|split; reflexivity].
  apply Hrequests. cbn [models]. repeat constructor; eexists; reflexivity.
Defined.

(** The claim C1 fails on a day of three records whose costs are -1e308,
    1e308 and 1e308.  Added in the order of the records the costs give
    1e308, which is the total of the summary; added in the order of
    [models], the largest first, they overflow. *)
Lemma total_cost_not_sum_over_models :
  exists s,
    transform_activity_data (JArr swing_day) "2025-08-25" = Ok s
    /\ total_cost s = Float 0x1.1ccf385ebc8ap+1023
    /\ Py.sum (fun m => Ok (cost m)) (models s) = Ok (Float infinity)
    /\ Py.sum (fun m => Ok (cost m)) (models s) <> Ok (total_cost s).
Proof.
  eexists. split; [vm_compute; reflexivity|].
  split; [reflexivity|]. split; [vm_compute; reflexivity|].
  vm_compute. discriminate.
Qed.

Lemma models_sorted_by_cost_stable_witness :
  exists s,
    transform_activity_data (JArr sample_day) "2025-08-25" = Ok s
    /\ StronglySorted cost_ge (models s)
    /\ exists ps,
         Forall2 projection_of sample_day ps
         /\ forall k,
              filter (fun m => as_number (cost m) = Some k) (models s)
              = filter (fun m => as_number (cost m) = Some k) ps.
Proof.
  eexists. split; [vm_compute; reflexivity|].
  apply (models_sorted_by_cost_stable sample_day "2025-08-25").
  vm_compute; reflexivity.
Defined.

Lemma model_name_fallback_witness :
  exists s,
    transform_activity_data (JArr sample_day) "2025-08-25" = Ok s
    /\ exists ps,
         models s ≡ₚ ps
         /\ Forall2 (fun item m =>
              project_model item = Ok m
              /\ exists fields,
                   item = JObj fields
                   /\ name m = match fields !! "model_permaslug" with
                               | Some slug => slug
                               | None =>
                                   match fields !! "model" with
                                   | Some generic => generic
                                   | None => JStr ""
                                   end
                               end) sample_day ps.
Proof.
  eexists. split; [vm_compute; reflexivity|].
  apply (model_name_fallback sample_day "2025-08-25").
  vm_compute; reflexivity.
Defined.

Lemma models_permutation_of_projections_witness :
  exists s,
    transform_activity_data (JArr sample_day) "2025-08-25" = Ok s
    /\ exists ps,
         Forall2 projection_of sample_day ps
         /\ models s ≡ₚ ps
         /\ length (models s) = length sample_day.
Proof.
  eexists. split; [vm_compute; reflexivity|].
  apply (models_permutation_of_projections sample_day "2025-08-25").
  vm_compute; reflexivity.
Defined.

(** The names, costs and totals of that day, as the script computes them. *)
Example sample_day_summary :
  match transform_activity_data (JArr sample_day) "2025-08-25" with
  | Ok s =>
      (name <$> models s)
      = [JStr "vendor/gpt-y-2025"; JStr "gpt-x"; JStr "gpt-x"; JStr ""]
      /\ (provider <$> models s)
         = [JStr "acme"; JStr "acme"; JStr "other"; JStr "other"]
      /\ (total_cost s, total_requests s, model_count s)
         = (Float 11.5, Int 16, 4%nat)
  | Raise _ => False
  end.
Proof. vm_compute. repeat split; reflexivity. Qed.

(** Float additions are rounded one by one, so that the order of the
    records shows in the total. *)
#[warnings="-inexact-float"]
Example total_cost_rounding :
  Py.sum Ok [real 0.1 eq_refl; real 0.2 eq_refl; real 0.3 eq_refl]
  = Ok (Float 0x1.3333333333334p-1)
  /\ Py.sum Ok [real 0.3 eq_refl; real 0.2 eq_refl; real 0.1 eq_refl]
     = Ok (Float 0x1.3333333333333p-1).
Proof. split; reflexivity. Qed.

(** ** Date range planner *)

Ltac calendar :=
  unfold valid, dt_le, dt_lt, dt_leb, valid_date, MINYEAR, MAXYEAR in *;
  cbn [year month day] in *.

(** Case analysis on a digit. *)
Ltac each_digit n H :=
  let k := fresh "k" in
  rewrite <- (Z2Nat.id n) in * by lia;
  generalize dependent (Z.to_nat n); intros k H;
  do 10 (destruct k as [|k]; [reflexivity|]); lia.

Lemma days_in_month_bounds y m : 28 <= days_in_month y m <= 31.
Proof. unfold days_in_month. repeat case_match; lia. Qed.

Lemma datetime_eq a b :
  year a = year b -> month a = month b -> day a = day b -> a = b.
Proof. destruct a, b; simpl; congruence. Qed.

Lemma dt_le_antisym a b : dt_le a b -> dt_le b a -> a = b.
Proof. intros H1 H2. calendar. apply datetime_eq; lia. Qed.

(** *** Parsing what [strftime] writes *)

Lemma digit_of_char n : 0 <= n <= 9 -> digit_of (char_of_digit n) = Some n.
Proof. intros H. each_digit n H. Qed.

Lemma two_digits_pad2 n :
  0 <= n <= 99 ->
  two_digits (char_of_digit (n / 10)) (char_of_digit (n mod 10)) = Some n.
Proof.
  intros H. unfold two_digits.
  rewrite !digit_of_char by (Z.div_mod_to_equations; lia).
  f_equal. Z.div_mod_to_equations; lia.
Qed.

Lemma parse_year_pad4 y rest :
  0 <= y <= 9999 -> parse_year (pad4 y ++ rest) = Some (y, rest).
Proof.
  intros H. unfold pad4, pad2. cbn [app parse_year].
  rewrite !two_digits_pad2 by (Z.div_mod_to_equations; lia).
  do 2 f_equal. Z.div_mod_to_equations; lia.
Qed.

Lemma char_of_digit_not_dash n :
  0 <= n <= 9 -> Ascii.eqb (char_of_digit n) "-" = false.
Proof. intros H. each_digit n H. Qed.

Lemma parse_month_pad2 m rest :
  1 <= m <= 12 -> parse_month (pad2 m ++ "-"%char :: rest) = Some (m, rest).
Proof.
  intros H. unfold pad2. cbn [app parse_month].
  rewrite char_of_digit_not_dash by (Z.div_mod_to_equations; lia).
  change (Ascii.eqb "-" "-") with true. cbn match.
  rewrite two_digits_pad2 by lia.
  destruct ((1 <=? m) && (m <=? 12)) eqn:E; [done|lia].
Qed.

Lemma parse_day_pad2 d : 1 <= d <= 31 -> parse_day (pad2 d) = Some d.
Proof.
  intros H. unfold pad2, parse_day.
  rewrite two_digits_pad2 by lia.
  destruct ((1 <=? d) && (d <=? 31)) eqn:E; [done|lia].
Qed.

Lemma strptime_valid s d : strptime s = Ok d -> valid d.
Proof.
  unfold strptime. intros H.
  destruct (parse_ymd _) as [[[y m] dd]|]; [|discriminate H].
  destruct (valid_date y m dd) eqn:E; [|discriminate H].
  inversion H; subst. exact E.
Qed.

Lemma strptime_nonempty s d : strptime s = Ok d -> s <> "".
Proof. intros H ->. discriminate H. Qed.

(** *** The calendar successor *)

Lemma add_one_day_next d :
  valid d -> d <> last_day ->
  exists next,
    add_one_day d = Ok next
    /\ valid next
    /\ dt_lt d next
    /\ forall x, valid x -> dt_lt d x -> dt_le next x.
Proof.
  intros Hv Hne. destruct d as [y m dd]. unfold add_one_day. cbn [year month day].
  pose proof (days_in_month_bounds y m) as Hm.
  pose proof (days_in_month_bounds y (m + 1)) as Hm1.
  pose proof (days_in_month_bounds (y + 1) 1) as Hy1.
  assert (Hbetween : forall x, valid x -> year x = y -> month x = m ->
                               day x <= days_in_month y m).
  { intros [xy xm xd] Hx. simpl. intros -> ->. calendar. lia. }
  destruct (Z.ltb_spec dd (days_in_month y m));
    [|destruct (Z.ltb_spec m 12); [|destruct (Z.ltb_spec y MAXYEAR)]].
  - eexists. split; [done|]. split; [calendar; lia|]. split; [calendar; lia|].
    intros x Hx Hlt. calendar. lia.
  - eexists. split; [done|]. split; [calendar; lia|]. split; [calendar; lia|].
    intros x Hx Hlt. specialize (Hbetween x Hx). calendar. lia.
  - eexists. split; [done|]. split; [calendar; lia|]. split; [calendar; lia|].
    intros x Hx Hlt. specialize (Hbetween x Hx). calendar. lia.
  - exfalso. apply Hne. assert (m = 12) as -> by (calendar; lia).
    assert (days_in_month y 12 = 31) as Hdec by reflexivity.
    unfold last_day. f_equal; calendar; lia.
Qed.

Lemma add_one_day_remaining current end_ next :
  dt_leb current end_ = true ->
  add_one_day current = Ok next ->
  (remaining next end_ < remaining current end_)%nat.
Proof.
  unfold dt_leb, add_one_day, remaining. intros Hle Hn.
  pose proof (days_in_month_bounds (year current) (month current)).
  destruct (Z.ltb_spec (day current) (days_in_month (year current) (month current)));
    [|destruct (Z.ltb_spec (month current) 12);
      [|destruct (Z.ltb_spec (year current) MAXYEAR)]];
    inversion Hn; subst; cbn [year month day]; lia.
Qed.

Section PlannerProperties.

Context {platform : Platform}.

(** A date of the calendar is written by [strftime] in a form that
    [strptime] reads back, when its year is written with four digits: on a
    platform that pads the year, and from the year 1000 on. *)
Lemma strptime_strftime d :
  valid d -> pads_year = true \/ 1000 <= year d -> strptime (strftime d) = Ok d.
Proof.
  intros Hv Hpad. unfold strptime, strftime.
  rewrite list_ascii_of_string_of_list_ascii. unfold parse_ymd.
  pose proof (days_in_month_bounds (year d) (month d)).
  assert (year_text (year d) = pad4 (year d)) as ->.
  { unfold year_text. destruct pads_year; [done|].
    destruct Hpad as [?|Hy]; [done|].
    repeat (case_match; [lia|]). done. }
  rewrite parse_year_pad4 by (calendar; lia).
  rewrite parse_month_pad2 by (calendar; lia).
  rewrite parse_day_pad2 by (calendar; lia).
  unfold valid in Hv. rewrite Hv. by destruct d.
Qed.

Lemma range_loop_step current end_ dates :
  range_loop current end_ dates
  = if dt_leb current end_ then
      match add_one_day current with
      | Ok next => range_loop next end_ (dates ++ [strftime current])
      | Raise e => Raise e
      end
    else Ok dates.
Proof.
  funelim (range_loop current end_ dates).
  - by rewrite e.
  - by rewrite Hle, Hnext.
  - by rewrite Hle, e1.
Qed.

(** *** The loop *)

(** From a day of the calendar up to an end day that is not the last one,
    the loop appends every day from [current] to [end_], in ascending
    order. *)
Lemma range_loop_days n :
  forall current end_ dates,
    (remaining current end_ < n)%nat ->
    valid current -> valid end_ -> end_ <> last_day ->
    exists days,
      range_loop current end_ dates = Ok (dates ++ (strftime <$> days))
      /\ StronglySorted dt_lt days
      /\ forall d, d ∈ days <-> valid d /\ dt_le current d /\ dt_le d end_.
Proof.
  induction n as [|n IH]; intros current end_ dates Hn Hc He Hlast; [lia|].
  rewrite range_loop_step. destruct (dt_leb current end_) eqn:Hle.
  - assert (current <> last_day) as Hcl.
    { intros ->. apply Hlast. unfold last_day in *. calendar.
      pose proof (days_in_month_bounds (year end_) (month end_)).
      apply datetime_eq; cbn [year month day]; lia. }
    destruct (add_one_day_next current Hc Hcl) as (next & Hnext & Hv & Hlt & Hsucc).
    rewrite Hnext.
    pose proof (add_one_day_remaining _ _ _ Hle Hnext) as Hdec.
    destruct (IH next end_ (dates ++ [strftime current])) as (days & Hrun & Hsorted & Hin);
      [lia|done..|].
    exists (current :: days). split; [|split].
    + rewrite Hrun. by rewrite <- app_assoc.
    + constructor; [done|]. apply List.Forall_forall. intros d Hd.
      apply list_elem_of_In, Hin in Hd as (_ & Hd & _). calendar. lia.
    + intros d. rewrite elem_of_cons, Hin. split.
      * intros [->|(Hd & Hnd & Hde)].
        -- repeat split; [done| |done]. calendar. lia.
        -- repeat split; [done| |done]. calendar. lia.
      * intros (Hd & Hcd & Hde). destruct (dt_leb d current) eqn:Hdc.
        -- left. by apply dt_le_antisym.
        -- right. repeat split; [done| |done]. by apply Hsucc.
  - exists []. split; [by rewrite app_nil_r|]. split; [constructor|].
    intros d. split; [by intros ?%elem_of_nil|].
    intros (_ & Hcd & Hde). exfalso. calendar. lia.
Qed.

(** C3, as the code has it.  When the end date precedes the start date the
    planner raises nothing: the loop body does not run and the result is
    the empty list. *)
Theorem end_before_start_empty start_date end_date start end_ :
  strptime start_date = Ok start ->
  strptime end_date = Ok end_ ->
  dt_lt end_ start ->
  parse_date_range start_date (Some end_date) = Ok [].
Proof.
  intros Hs He Hlt. unfold parse_date_range. rewrite Hs. cbn [Py.bind].
  rewrite bool_decide_eq_false_2 by (by eapply strptime_nonempty).
  cbn [negb]. rewrite He. cbn [Py.bind].
  rewrite range_loop_step. unfold dt_lt in Hlt. by rewrite Hlt.
Qed.

(** X24. For a start date not after an end date that is not the last day
    the calendar has, the planner returns, as text and in ascending order,
    every date of the calendar from the start date to the end date. *)
Theorem range_inclusive_ascending start_date end_date start end_ :
  strptime start_date = Ok start ->
  strptime end_date = Ok end_ ->
  dt_le start end_ ->
  end_ <> last_day ->
  exists days,
    parse_date_range start_date (Some end_date) = Ok (strftime <$> days)
    /\ StronglySorted dt_lt days
    /\ forall d, d ∈ days <-> valid d /\ dt_le start d /\ dt_le d end_.
Proof.
  intros Hs He Hle Hlast. unfold parse_date_range. rewrite Hs. cbn [Py.bind].
  rewrite bool_decide_eq_false_2 by (by eapply strptime_nonempty).
  cbn [negb]. rewrite He. cbn [Py.bind].
  destruct (range_loop_days (S (remaining start end_)) start end_ [])
    as (days & Hrun & Hrest); eauto using strptime_valid.
Qed.

(** C8. A start date without an end date gives the list that holds that
    date alone, as [strftime] writes it; that text reads back as the same
    date when the year is written with four digits. *)
Theorem start_only_single_date start_date start :
  strptime start_date = Ok start ->
  parse_date_range start_date None = Ok [strftime start]
  /\ (pads_year = true \/ 1000 <= year start ->
      strptime (strftime start) = Ok start).
Proof.
  intros Hs. unfold parse_date_range. rewrite Hs. split; [done|].
  apply strptime_strftime. by eapply strptime_valid.
Qed.

End PlannerProperties.

Lemma end_before_start_empty_witness :
  parse_date_range "2025-08-22" (Some "2025-08-20") = Ok [].
Proof.
  apply (end_before_start_empty "2025-08-22" "2025-08-20"
           {| year := 2025; month := 8; day := 22 |}
           {| year := 2025; month := 8; day := 20 |});
    reflexivity.
Defined.

(** The claim C3 fails on the range 2025-08-22 to 2025-08-20: both dates
    are read, the end precedes the start, and the planner returns an empty
    list where the claim has it raise. *)
Lemma end_before_start_not_an_error :
  strptime "2025-08-22" = Ok {| year := 2025; month := 8; day := 22 |}
  /\ strptime "2025-08-20" = Ok {| year := 2025; month := 8; day := 20 |}
  /\ dt_lt {| year := 2025; month := 8; day := 20 |}
           {| year := 2025; month := 8; day := 22 |}
  /\ parse_date_range "2025-08-22" (Some "2025-08-20") = Ok []
  /\ ~ exists e, parse_date_range "2025-08-22" (Some "2025-08-20") = Raise e.
Proof.
  repeat split; try reflexivity. intros [e He]. vm_compute in He. discriminate He.
Qed.

Lemma range_inclusive_ascending_witness :
  exists days,
    parse_date_range "2025-08-20" (Some "2025-08-22") = Ok (strftime <$> days)
    /\ StronglySorted dt_lt days
    /\ forall d, d ∈ days <->
         valid d
         /\ dt_le {| year := 2025; month := 8; day := 20 |} d
         /\ dt_le d {| year := 2025; month := 8; day := 22 |}.
Proof.
  apply (range_inclusive_ascending "2025-08-20" "2025-08-22"
           {| year := 2025; month := 8; day := 20 |}
           {| year := 2025; month := 8; day := 22 |});
    [reflexivity|reflexivity|reflexivity|discriminate].
Defined.

(** The range of the specification's example. *)
Example range_august_20_to_22 :
  parse_date_range "2025-08-20" (Some "2025-08-22")
  = Ok ["2025-08-20"; "2025-08-21"; "2025-08-22"].
Proof. reflexivity. Qed.

(** C5 fails when the end date is 9999-12-31: after the last day is
    appended the loop adds one day to it, which raises [OverflowError],
    and the dates collected so far are lost.  Without an end date the same
    day is returned. *)
Lemma range_to_last_day_overflows :
  strptime "9999-12-30" = Ok {| year := 9999; month := 12; day := 30 |}
  /\ strptime "9999-12-31" = Ok last_day
  /\ dt_le {| year := 9999; month := 12; day := 30 |} last_day
  /\ parse_date_range "9999-12-30" (Some "9999-12-31") = Raise OverflowError
  /\ (~ exists dates, parse_date_range "9999-12-30" (Some "9999-12-31") = Ok dates)
  /\ parse_date_range "9999-12-31" (Some "9999-12-31") = Raise OverflowError
  /\ parse_date_range "9999-12-31" None = Ok ["9999-12-31"].
Proof.
  repeat split; try reflexivity. intros [dates H]. vm_compute in H. discriminate H.
Qed.

Lemma start_only_single_date_witness :
  parse_date_range "2025-08-20" None = Ok ["2025-08-20"]
  /\ strptime "2025-08-20" = Ok {| year := 2025; month := 8; day := 20 |}.
Proof.
  destruct (start_only_single_date "2025-08-20"
              {| year := 2025; month := 8; day := 20 |}) as [Hlist Hback];
    [reflexivity|].
  split; [exact Hlist|]. apply Hback. right. simpl. lia.
Defined.

(** A start date of the year 999 on a platform that does not pad the year:
    the date is returned with a year of three digits, which [strptime]
    does not accept. *)
Example start_only_year_999 :
  parse_date_range "0999-12-31" None = Ok ["999-12-31"]
  /\ strptime "999-12-31" = Raise ValueError.
Proof. split; reflexivity. Qed.

(** ** Sender and driver *)

Section DriverProperties.

Context {World : Type}.
Variable http_get :
  string -> list (string * string) -> list (string * string) ->
  World -> http_outcome * World.
Variable http_post : string -> Payload -> World -> http_outcome * World.
Variables openrouter_key posthog_key posthog_host : string.

Local Abbreviation fetch := (fetch_openrouter_activity http_get openrouter_key).
Local Abbreviation send := (send_to_posthog http_post posthog_key posthog_host).
Local Abbreviation sync_steps' := (sync_steps http_get http_post openrouter_key posthog_key posthog_host).
Local Abbreviation sync_date' := (sync_date http_get http_post openrouter_key posthog_key posthog_host).
Local Abbreviation sync_all' := (sync_all http_get http_post openrouter_key posthog_key posthog_host).
Local Abbreviation run_dates' := (run_dates http_get http_post openrouter_key posthog_key posthog_host).
Local Abbreviation outcomes' := (outcomes http_get http_post openrouter_key posthog_key posthog_host).

(** *** What a computation emits *)

Lemma emitted_mbind {A B} (m : M World A) (k : A -> M World B) w :
  emitted (mbind m k w)
  = emitted (m w) ++ match value (m w) with
                     | Ok a => emitted (k a (after (m w)))
                     | Raise _ => []
                     end.
Proof. unfold mbind. destruct (value (m w)); simpl; by rewrite ?app_nil_r. Qed.

Lemma emitted_try_except {A} (m : M World A) (h : exn -> M World A) w :
  emitted (try_except m h w)
  = emitted (m w) ++ match value (m w) with
                     | Ok _ => []
                     | Raise e => emitted (h e (after (m w)))
                     end.
Proof. unfold try_except. destruct (value (m w)); simpl; by rewrite ?app_nil_r. Qed.

Lemma value_mbind {A B} (m : M World A) (k : A -> M World B) w :
  value (mbind m k w)
  = match value (m w) with
    | Ok a => value (k a (after (m w)))
    | Raise e => Raise e
    end.
Proof. unfold mbind. by destruct (value (m w)). Qed.

Lemma after_mbind {A B} (m : M World A) (k : A -> M World B) w :
  after (mbind m k w)
  = match value (m w) with
    | Ok a => after (k a (after (m w)))
    | Raise e => after (m w)
    end.
Proof. unfold mbind. by destruct (value (m w)). Qed.

Lemma value_try_except {A} (m : M World A) (h : exn -> M World A) w :
  value (try_except m h w)
  = match value (m w) with
    | Ok a => Ok a
    | Raise e => value (h e (after (m w)))
    end.
Proof. unfold try_except. by destruct (value (m w)) eqn:E. Qed.

Lemma after_try_except {A} (m : M World A) (h : exn -> M World A) w :
  after (try_except m h w)
  = match value (m w) with
    | Ok _ => after (m w)
    | Raise e => after (h e (after (m w)))
    end.
Proof. unfold try_except. by destruct (value (m w)). Qed.

Lemma silent_lift {A} (r : result A) : silent (lift (World := World) r).
Proof. done. Qed.

Lemma silent_ret {A} (a : A) : silent (ret (World := World) a).
Proof. done. Qed.

Lemma silent_raise {A} (e : exn) : silent (raise (World := World) (A := A) e).
Proof. done. Qed.

Lemma silent_mbind {A B} (m : M World A) (k : A -> M World B) :
  silent m -> (forall a, silent (k a)) -> silent (mbind m k).
Proof.
  intros Hm Hk w. rewrite emitted_mbind, Hm. destruct (value (m w)); [apply Hk|done].
Qed.

Lemma is_silent {A} (m : M World A) w : silent m -> emitted (m w) = [].
Proof. intros H. apply H. Qed.

Hint Resolve silent_lift silent_ret silent_raise silent_mbind : silent.

Lemma requests_get_emitted url headers params w :
  emitted (requests_get http_get url headers params w) = [HttpGet url headers params].
Proof. unfold requests_get. by destruct (http_get url headers params w). Qed.

Lemma requests_post_emitted url payload w :
  emitted (requests_post http_post url payload w) = [HttpPost url payload].
Proof. unfold requests_post. by destruct (http_post url payload w). Qed.

(** The fetcher makes one request, for the date it is given. *)
Lemma fetch_emitted date_ w :
  emitted (fetch date_ w)
  = [HttpGet "https://openrouter.ai/api/v1/activity"
       [("Authorization", ("Bearer " ++ openrouter_key)%string)] [("date", date_)]].
Proof.
  unfold fetch_openrouter_activity.
  rewrite emitted_mbind, requests_get_emitted.
  destruct (value _) as [response|e]; [|done].
  cbn [app]. f_equal. apply is_silent.
  repeat (apply silent_mbind; [auto with silent|intros ?]).
  case_match; auto with silent.
Qed.

(** The sender makes one request: the envelope, posted to the ingestion
    endpoint of the host. *)
Lemma send_emitted event_data date_ w :
  emitted (send event_data date_ w)
  = [HttpPost (posthog_host ++ "/i/v0/e/")%string
       {| api_key := posthog_key;
          event := "openrouter_daily_activity";
          distinct_id := "enchanted_github_actions";
          properties := event_data;
          timestamp := (date_ ++ "T23:30:00Z")%string |}].
Proof.
  unfold send_to_posthog.
  rewrite emitted_mbind, requests_post_emitted.
  destruct (value _) as [response|e]; [|done].
  cbn [app]. f_equal. apply is_silent.
  repeat (apply silent_mbind; [auto with silent|intros ?]).
  case_match; auto with silent.
Qed.

(** *** What the steps of a sync emit *)

Lemma mute_silent {A E} (f : io_event -> option E) (m : M World A) :
  silent m -> mute f m.
Proof. intros H w. by rewrite H. Qed.

Lemma mute_print {E} (f : io_event -> option E) msg :
  f (Printed msg) = None -> mute f (print (World := World) msg).
Proof. intros H w. cbn. by rewrite H. Qed.

Lemma mute_fetch {E} (f : io_event -> option E) date_ :
  (forall url headers params, f (HttpGet url headers params) = None) ->
  mute f (fetch date_).
Proof. intros H w. rewrite fetch_emitted. cbn. by rewrite H. Qed.

Lemma mute_send {E} (f : io_event -> option E) event_data date_ :
  (forall url payload, f (HttpPost url payload) = None) ->
  mute f (send event_data date_).
Proof. intros H w. rewrite send_emitted. cbn. by rewrite H. Qed.

Lemma mute_mbind {A B E} (f : io_event -> option E) (m : M World A)
  (k : A -> M World B) :
  mute f m -> (forall a, mute f (k a)) -> mute f (mbind m k).
Proof.
  intros Hm Hk w. rewrite emitted_mbind, omap_app, Hm.
  destruct (value (m w)); [apply Hk|done].
Qed.

Lemma mute_try_except {A E} (f : io_event -> option E) (m : M World A)
  (h : exn -> M World A) :
  mute f m -> (forall e, mute f (h e)) -> mute f (try_except m h).
Proof.
  intros Hm Hh w. rewrite emitted_try_except, omap_app, Hm.
  destruct (value (m w)); [done|apply Hh].
Qed.

Lemma is_mute {A E} (f : io_event -> option E) (m : M World A) w :
  mute f m -> omap f (emitted (m w)) = [].
Proof. intros H. apply H. Qed.

(** Closes [mute f m] for a chain of the script's steps. *)
Ltac mute_steps :=
  repeat first
    [ apply mute_fetch; intros; reflexivity
    | apply mute_send; intros; reflexivity
    | apply mute_print; solve [reflexivity | case_match; reflexivity]
    | apply mute_silent; solve [auto with silent]
    | apply mute_try_except; [|intros ?]
    | apply mute_mbind; [|intros ?] ].

Lemma sync_steps_requests date_ w :
  omap requested_date (emitted (sync_steps' date_ w)) = [date_].
Proof.
  unfold sync_steps. rewrite emitted_mbind, omap_app, fetch_emitted.
  change (omap requested_date [HttpGet _ _ [("date", date_)]]) with [date_].
  cbn [app]. f_equal.
  destruct (value _) as [raw_data|e]; [|done].
  apply is_mute. mute_steps.
Qed.

(** Each run of [sync_date] asks for the activity of its date, once. *)
Lemma sync_date_requests date_ w :
  omap requested_date (emitted (sync_date' date_ w)) = [date_].
Proof.
  unfold sync_date. rewrite emitted_mbind. cbn [print value emitted after app].
  cbn [omap list_omap requested_date].
  rewrite emitted_try_except, omap_app, sync_steps_requests.
  destruct (value _) as [[]|e]; [done|].
  rewrite emitted_mbind. by cbn.
Qed.

(** [sync_date] itself reports no date as skipped. *)
Lemma sync_date_skips date_ : mute skipped_date (sync_date' date_).
Proof. unfold sync_date, sync_steps. mute_steps. Qed.

(** [sync_date] reports the exception of its steps unchanged. *)
Lemma sync_date_value date_ w :
  value (sync_date' date_ w) = value (sync_steps' date_ w).
Proof.
  unfold sync_date. rewrite value_mbind. cbn [print value after].
  rewrite value_try_except.
  destruct (value (sync_steps' date_ w)) as [[]|e]; [done|].
  by rewrite value_mbind.
Qed.

(** The steps succeed when the fetch returns data, the number of records
    is logged, the data is aggregated, the total cost is logged and the
    event is accepted. *)
Lemma sync_steps_succeeds date_ w :
  value (sync_steps' date_ w) = Ok tt <->
  exists raw_data found event_data shown,
    value (fetch date_ w) = Ok raw_data
    /\ len raw_data = Ok found
    /\ transform_activity_data raw_data date_ = Ok event_data
    /\ format_cost (total_cost event_data) = Ok shown
    /\ value (send event_data date_ (after (fetch date_ w))) = Ok tt.
Proof.
  unfold sync_steps. rewrite value_mbind. split.
  - intros H.
    destruct (value (fetch date_ w)) as [raw_data|e] eqn:Hfetch; [|done].
    rewrite value_mbind in H. cbn [lift value after] in H.
    destruct (len raw_data) as [found|e] eqn:Hlen; [|done].
    rewrite !value_mbind in H. cbn [print lift value after] in H.
    destruct (transform_activity_data raw_data date_) as [event_data|e] eqn:Hagg;
      [|done].
    rewrite !value_mbind in H. cbn [print lift value after] in H.
    destruct (format_cost (total_cost event_data)) as [shown|e] eqn:Hshown; [|done].
    rewrite !value_mbind in H. cbn [print lift value after] in H.
    exists raw_data, found, event_data, shown. repeat split; try done.
    destruct (value (send event_data date_ (after (fetch date_ w)))) as [[]|e];
      done.
  - intros (raw_data & found & event_data & shown & -> & Hlen & Hagg & Hshown & Hsend).
    rewrite value_mbind. cbn [lift value after]. rewrite Hlen.
    rewrite !value_mbind. cbn [print lift value after]. rewrite Hagg.
    rewrite !value_mbind. cbn [print lift value after]. rewrite Hshown.
    rewrite !value_mbind. cbn [print lift value after]. by rewrite Hsend.
Qed.

(** *** The loop *)

(** One turn of the loop of lines 194-200. *)
Lemma turn_value date_ (count : nat) w :
  value (try_except (sync_date' date_ ;; ret (S count))
           (fun _ => print (MsgSkipping date_) ;; ret count) w)
  = Ok (if is_ok (value (sync_date' date_ w)) then S count else count).
Proof.
  rewrite value_try_except, value_mbind.
  destruct (value (sync_date' date_ w)) as [[]|e]; [done|].
  by rewrite value_mbind.
Qed.

Lemma turn_after date_ (count : nat) w :
  after (try_except (sync_date' date_ ;; ret (S count))
           (fun _ => print (MsgSkipping date_) ;; ret count) w)
  = after (sync_date' date_ w).
Proof.
  rewrite after_try_except, value_mbind, after_mbind.
  destruct (value (sync_date' date_ w)) as [[]|e]; [done|].
  by rewrite after_mbind.
Qed.

Lemma turn_requests date_ (count : nat) w :
  omap requested_date
    (emitted (try_except (sync_date' date_ ;; ret (S count))
                (fun _ => print (MsgSkipping date_) ;; ret count) w))
  = [date_].
Proof.
  rewrite emitted_try_except, omap_app, emitted_mbind, omap_app, sync_date_requests.
  rewrite value_mbind.
  destruct (value (sync_date' date_ w)) as [[]|e]; [done|].
  rewrite emitted_mbind. by cbn.
Qed.

Lemma turn_skips date_ (count : nat) w :
  omap skipped_date
    (emitted (try_except (sync_date' date_ ;; ret (S count))
                (fun _ => print (MsgSkipping date_) ;; ret count) w))
  = if is_ok (value (sync_date' date_ w)) then [] else [date_].
Proof.
  rewrite emitted_try_except, omap_app, emitted_mbind, omap_app.
  rewrite (is_mute skipped_date _ w (sync_date_skips date_)).
  rewrite value_mbind.
  destruct (value (sync_date' date_ w)) as [[]|e]; [done|].
  rewrite emitted_mbind. by cbn.
Qed.

Lemma sync_all_value dates (count : nat) w :
  value (sync_all' dates count w) = Ok (count + successes (outcomes' dates w))%nat.
Proof.
  revert count w. induction dates as [|date_ rest IH]; intros count w.
  - cbn. f_equal. unfold successes. simpl. lia.
  - cbn [sync_all outcomes]. rewrite value_mbind, turn_value, turn_after, IH.
    f_equal. unfold successes. cbn [List.filter].
    destruct (is_ok (value (sync_date' date_ w))); simpl; lia.
Qed.

Lemma sync_all_requests dates (count : nat) w :
  omap requested_date (emitted (sync_all' dates count w)) = dates.
Proof.
  revert count w. induction dates as [|date_ rest IH]; intros count w; [done|].
  cbn [sync_all]. rewrite emitted_mbind, omap_app, turn_requests, turn_value.
  by rewrite IH.
Qed.

Lemma sync_all_skips dates (count : nat) w :
  omap skipped_date (emitted (sync_all' dates count w))
  = failed_dates dates (outcomes' dates w).
Proof.
  revert count w. induction dates as [|date_ rest IH]; intros count w; [done|].
  cbn [sync_all outcomes failed_dates].
  rewrite emitted_mbind, omap_app, turn_skips, turn_value, turn_after, IH.
  by destruct (is_ok (value (sync_date' date_ w))).
Qed.

Lemma outcomes_length dates w : length (outcomes' dates w) = length dates.
Proof.
  revert w. induction dates as [|date_ rest IH]; intros w; [done|].
  simpl. by rewrite IH.
Qed.

Lemma run_dates_emitted dates w :
  emitted (run_dates' dates w)
  = emitted (sync_all' dates 0%nat w)
    ++ [Printed (MsgSummary (successes (outcomes' dates w)) (length dates))].
Proof. unfold run_dates. by rewrite emitted_mbind, sync_all_value. Qed.

Lemma run_dates_value dates w : value (run_dates' dates w) = Ok tt.
Proof. unfold run_dates. by rewrite value_mbind, sync_all_value. Qed.

End DriverProperties.

Lemma counted_or_skipped dates results :
  length results = length dates ->
  (successes results + length (failed_dates dates results))%nat = length dates.
Proof.
  revert results. induction dates as [|date_ dates IH]; intros [|r results] Hlen;
    try discriminate Hlen; [done|].
  injection Hlen as Hlen. specialize (IH results Hlen).
  unfold successes in *. cbn [failed_dates List.filter].
  destruct (is_ok r); simpl; lia.
Qed.

(** C7. Whatever the state of the world when the sender runs, it posts one
    envelope: its timestamp is the date followed by [T23:30:00Z], its event
    name is [openrouter_daily_activity], and its properties are the
    summary. *)
Theorem event_envelope {World : Type}
  (http_post : string -> Payload -> World -> http_outcome * World)
  (api_key_ host : string) (event_data : DailySummary) (date_ : string) (w : World) :
  emitted (send_to_posthog http_post api_key_ host event_data date_ w)
  = [HttpPost (host ++ "/i/v0/e/")%string
       {| api_key := api_key_;
          event := "openrouter_daily_activity";
          distinct_id := "enchanted_github_actions";
          properties := event_data;
          timestamp := (date_ ++ "T23:30:00Z")%string |}].
Proof. apply send_emitted. Qed.

(** The envelope of 2025-08-25. *)
Example envelope_august_25 :
  omap posted_timestamp
    (emitted (send_to_posthog demo_post "ph-key" "https://us.i.posthog.com"
                (empty_summary "2025-08-25") "2025-08-25" tt))
  = ["2025-08-25T23:30:00Z"].
Proof. reflexivity. Qed.

(** C4. The driver attempts every planned date in order, whatever happened
    to the dates before it, and raises nothing; it reports as skipped the
    dates whose sync raised, and the summary it prints last counts the
    others, out of the number of dates; and the sync of a date succeeds
    exactly when the fetch, the aggregation and the send all did, and the
    two lines between them could be logged: the number of records fetched
    and the total cost. *)
Theorem driver_isolates_failures {World : Type}
  (http_get : string -> list (string * string) -> list (string * string) ->
              World -> http_outcome * World)
  (http_post : string -> Payload -> World -> http_outcome * World)
  (openrouter_key posthog_key posthog_host : string)
  (dates : list string) (w : World) :
  let results :=
    outcomes http_get http_post openrouter_key posthog_key posthog_host dates w in
  let r :=
    run_dates http_get http_post openrouter_key posthog_key posthog_host dates w in
  value r = Ok tt
  /\ omap requested_date (emitted r) = dates
  /\ omap skipped_date (emitted r) = failed_dates dates results
  /\ (successes results + length (failed_dates dates results))%nat = length dates
  /\ list.last (emitted r)
     = Some (Printed (MsgSummary (successes results) (length dates)))
  /\ forall date_ w',
       value (sync_date http_get http_post openrouter_key posthog_key
                posthog_host date_ w') = Ok tt
       <-> exists raw_data found event_data shown,
             value (fetch_openrouter_activity http_get openrouter_key date_ w')
             = Ok raw_data
             /\ len raw_data = Ok found
             /\ transform_activity_data raw_data date_ = Ok event_data
             /\ format_cost (total_cost event_data) = Ok shown
             /\ value (send_to_posthog http_post posthog_key posthog_host
                         event_data date_
                         (after (fetch_openrouter_activity http_get
                                   openrouter_key date_ w')))
                = Ok tt.
Proof.
  cbn zeta. split; [apply run_dates_value|].
  split; [|split; [|split; [|split]]].
  - rewrite run_dates_emitted, omap_app, sync_all_requests. cbn. apply app_nil_r.
  - rewrite run_dates_emitted, omap_app, sync_all_skips. cbn. apply app_nil_r.
  - apply counted_or_skipped, outcomes_length.
  - rewrite run_dates_emitted. apply list.last_snoc.
  - intros date_ w'. rewrite sync_date_value. apply sync_steps_succeeds.
Qed.

(** Three dates, the event of the second refused by PostHog: all three
    are fetched and sent, and the summary is 2/3. *)
Lemma driver_isolates_failures_witness :
  let r := run_dates demo_get demo_post "or-key" "ph-key" "https://us.i.posthog.com"
             ["2025-08-20"; "2025-08-21"; "2025-08-22"] tt in
  value r = Ok tt
  /\ omap requested_date (emitted r) = ["2025-08-20"; "2025-08-21"; "2025-08-22"]
  /\ omap posted_timestamp (emitted r)
     = ["2025-08-20T23:30:00Z"; "2025-08-21T23:30:00Z"; "2025-08-22T23:30:00Z"]
  /\ omap skipped_date (emitted r) = ["2025-08-21"]
  /\ list.last (emitted r) = Some (Printed (MsgSummary 2 3)).
Proof.
  destruct (driver_isolates_failures demo_get demo_post "or-key" "ph-key"
              "https://us.i.posthog.com"
              ["2025-08-20"; "2025-08-21"; "2025-08-22"] tt)
    as (Hvalue & Hrequests & Hskipped & _ & Hlast & _).
  cbn zeta. split; [exact Hvalue|]. split; [exact Hrequests|].
  split; [vm_compute; reflexivity|].
  split; [rewrite Hskipped; vm_compute; reflexivity|].
  rewrite Hlast. vm_compute. reflexivity.
Defined.

(** The same backfill from the command line. *)
Example backfill_with_one_refusal :
  let r := main demo_get demo_post demo_clock
             (backfill "2025-08-20" "2025-08-22") demo_env tt in
  value r = Ok 0
  /\ omap requested_date (emitted r) = ["2025-08-20"; "2025-08-21"; "2025-08-22"]
  /\ omap posted_timestamp (emitted r)
     = ["2025-08-20T23:30:00Z"; "2025-08-21T23:30:00Z"; "2025-08-22T23:30:00Z"]
  /\ omap skipped_date (emitted r) = ["2025-08-21"]
  /\ list.last (emitted r) = Some (Printed (MsgSummary 2 3)).
Proof. vm_compute. repeat split; reflexivity. Qed.

(** A backfill whose end date precedes its start date: the planner returns
    no date, and [main] stops at [dates[0]] with [IndexError] before it has
    printed or requested anything. *)
Example backfill_reversed :
  let r := main demo_get demo_post demo_clock
             (backfill "2025-08-22" "2025-08-20") demo_env tt in
  value r = Raise IndexError /\ emitted r = [].
Proof. vm_compute. split; reflexivity. Qed.

(** The record of the specification's example, for 2025-08-25. *)
Example single_record_day :
  match transform_activity_data
          (JArr [record [("usage", real 3.5 eq_refl); ("requests", JInt 10);
                         ("prompt_tokens", JInt 100);
                         ("completion_tokens", JInt 50);
                         ("provider_name", JStr "acme"); ("model", JStr "gpt-x")]])
          "2025-08-25" with
  | Ok s =>
      (total_cost s, total_requests s, total_prompt_tokens s,
       total_completion_tokens s, total_reasoning_tokens s, model_count s)
      = (Float 3.5, Int 10, Int 100, Int 50, Int 0, 1%nat)
  | Raise _ => False
  end.
Proof. vm_compute. reflexivity. Qed.

(** A day whose one cost is an integer beyond the range of [float]: the
    data is fetched and aggregated, the line that shows the total cost
    raises [OverflowError], and no event is posted. *)
Example huge_total_is_not_posted :
  let r := sync_date (answering_get
                        (Response {| status_code := 200;
                                     body := Some (record [("data", JArr huge_day)]) |}))
             demo_post "or-key" "ph-key" "https://us.i.posthog.com" "2025-08-25" tt in
  value r = Raise OverflowError
  /\ omap posted (emitted r) = []
  /\ list.last (emitted r) = Some (Printed (MsgError "2025-08-25" OverflowError)).
Proof. vm_compute. repeat split; reflexivity. Qed.

(** * Further properties *)

(** ** Date range planner *)

Lemma strptime_Raise s x : strptime s = Raise x -> x = ValueError.
Proof.
  unfold strptime. intros H.
  destruct (parse_ymd _) as [[[y m] d]|]; [|by inversion H].
  destruct (valid_date y m d); [discriminate H|by inversion H].
Qed.

Lemma valid_le_last_day d : valid d -> dt_le d last_day.
Proof.
  intros H. pose proof (days_in_month_bounds (year d) (month d)).
  unfold last_day. calendar. lia.
Qed.

Lemma sorted_NoDup days : StronglySorted dt_lt days -> NoDup days.
Proof.
  induction 1 as [|d days _ IH Hall]; [constructor|].
  apply list.NoDup_cons. split; [|done].
  intros Hin. rewrite list.Forall_forall in Hall.
  apply Hall in Hin. calendar. lia.
Qed.

Section PlannerFurther.

Context {platform : Platform}.

(** Up to the last day of the calendar the loop cannot stop: it runs into
    the day after it. *)
Lemma range_loop_overflow n :
  forall current dates,
    (remaining current last_day < n)%nat ->
    valid current ->
    range_loop current last_day dates = Raise OverflowError.
Proof.
  induction n as [|n IH]; intros current dates Hn Hv; [lia|].
  rewrite range_loop_step. rewrite (valid_le_last_day current Hv).
  destruct (dt_leb last_day current) eqn:Hge.
  - assert (current = last_day) as -> by (by apply dt_le_antisym; [apply valid_le_last_day|]).
    reflexivity.
  - assert (current <> last_day) as Hne by (intros ->; discriminate Hge).
    destruct (add_one_day_next current Hv Hne) as (next & Hnext & Hvn & _).
    rewrite Hnext. apply IH; [|done].
    pose proof (add_one_day_remaining _ _ _ (valid_le_last_day current Hv) Hnext). lia.
Qed.

(** The loop, as a chain of days that ends with the end date. *)
Lemma range_loop_chain n :
  forall current end_ dates,
    (remaining current end_ < n)%nat ->
    valid current -> valid end_ -> end_ <> last_day -> dt_le current end_ ->
    exists days,
      range_loop current end_ dates = Ok (dates ++ (strftime <$> current :: days))
      /\ list.last (current :: days) = Some end_
      /\ consecutive (current :: days).
Proof.
  induction n as [|n IH]; intros current end_ dates Hn Hc He Hlast Hle; [lia|].
  rewrite range_loop_step. rewrite Hle.
  assert (current <> last_day) as Hcl.
  { intros ->. apply Hlast. symmetry. apply dt_le_antisym; [done|].
    by apply valid_le_last_day. }
  destruct (add_one_day_next current Hc Hcl) as (next & Hnext & Hv & Hlt & Hsucc).
  rewrite Hnext.
  pose proof (add_one_day_remaining _ _ _ Hle Hnext) as Hdec.
  destruct (dt_leb next end_) eqn:Hne.
  - destruct (IH next end_ (dates ++ [strftime current])) as (days & Hrun & Hl & Hch);
      [lia|done..|].
    exists (next :: days). split; [|split].
    + rewrite Hrun. by rewrite <- app_assoc.
    + by rewrite list.last_cons_cons.
    + intros [|i] a b Ha Hb; simpl in *.
      * by simplify_eq.
      * by eapply Hch.
  - exists []. split; [|split].
    + rewrite range_loop_step, Hne. done.
    + simpl. f_equal. apply dt_le_antisym; [done|].
      destruct (dt_leb end_ current) eqn:Hec; [done|].
      specialize (Hsucc end_ He Hec). unfold dt_le in Hsucc. congruence.
    + intros [|i] a b Ha Hb; discriminate Hb.
Qed.

(** X1. For a start date not after an end date that is not the last day of
    the calendar, the list the planner returns begins with the start date,
    ends with the end date, and each of its dates is the day after the one
    before it. *)
Theorem range_first_last_consecutive start_date end_date start end_ :
  strptime start_date = Ok start ->
  strptime end_date = Ok end_ ->
  dt_le start end_ ->
  end_ <> last_day ->
  exists days,
    parse_date_range start_date (Some end_date) = Ok (strftime <$> days)
    /\ head days = Some start
    /\ list.last days = Some end_
    /\ consecutive days.
Proof.
  intros Hs He Hle Hlast. unfold parse_date_range. rewrite Hs. cbn [Py.bind].
  rewrite bool_decide_eq_false_2 by (by eapply strptime_nonempty).
  cbn [negb]. rewrite He. cbn [Py.bind].
  destruct (range_loop_chain (S (remaining start end_)) start end_ [])
    as (days & Hrun & Hl & Hch); eauto using strptime_valid.
Qed.

(** X2. The planner raises [ValueError] when [strptime] rejects the start
    date or the end date, [OverflowError] when the end date is
    9999-12-31, and nothing else. *)
Theorem planner_exceptions start_date end_date x :
  parse_date_range start_date end_date = Raise x ->
  (x = ValueError
   /\ (strptime start_date = Raise ValueError
       \/ exists e, end_date = Some e /\ e <> "" /\ strptime e = Raise ValueError))
  \/ (x = OverflowError /\ exists e, end_date = Some e /\ strptime e = Ok last_day).
Proof.
  unfold parse_date_range. intros Hx.
  destruct (strptime start_date) as [start|x0] eqn:Hs.
  - cbn [Py.bind] in Hx. destruct end_date as [e|]; [|discriminate Hx].
    destruct (bool_decide (e = "")) eqn:Hemp; [discriminate Hx|].
    apply bool_decide_eq_false_1 in Hemp. cbn [negb] in Hx.
    destruct (strptime e) as [end_|x1] eqn:He.
    + cbn [Py.bind] in Hx. right.
      pose proof (strptime_valid _ _ Hs) as Hvs.
      pose proof (strptime_valid _ _ He) as Hve.
      destruct (dt_leb last_day end_) eqn:Hmax.
      * assert (end_ = last_day) as ->
          by (apply dt_le_antisym; [by apply valid_le_last_day|done]).
        rewrite (range_loop_overflow (S (remaining start last_day))) in Hx by (lia || done).
        inversion Hx. eauto.
      * assert (end_ <> last_day) as Hne by (intros ->; discriminate Hmax).
        destruct (range_loop_days (S (remaining start end_)) start end_ [])
          as (days & Hrun & _); [lia|done..|].
        rewrite Hrun in Hx. discriminate Hx.
    + cbn [Py.bind] in Hx. inversion Hx; subst.
      pose proof (strptime_Raise _ _ He) as ->. left. eauto 10.
  - cbn [Py.bind] in Hx. inversion Hx; subst.
    pose proof (strptime_Raise _ _ Hs) as ->. left. eauto.
Qed.

(** X3. Whatever the start date, a range that ends on 9999-12-31 is not
    returned: the step past the last day raises [OverflowError]. *)
Theorem range_to_last_day_raises start_date end_date start :
  strptime start_date = Ok start ->
  strptime end_date = Ok last_day ->
  parse_date_range start_date (Some end_date) = Raise OverflowError.
Proof.
  intros Hs He. unfold parse_date_range. rewrite Hs. cbn [Py.bind].
  rewrite bool_decide_eq_false_2 by (by eapply strptime_nonempty).
  cbn [negb]. rewrite He. cbn [Py.bind].
  apply (range_loop_overflow (S (remaining start last_day))); [lia|].
  by eapply strptime_valid.
Qed.

(** The digits of a year tell the year, padded or not. *)
Lemma year_text_decimal y : 1 <= y <= 9999 -> decimal (year_text y) = y.
Proof.
  intros Hy. unfold year_text, decimal.
  destruct pads_year;
    [|destruct (Z.ltb_spec y 10);
      [|destruct (Z.ltb_spec y 100); [|destruct (Z.ltb_spec y 1000)]]];
    unfold pad4, pad2; cbn [fold_left app];
    rewrite ?digit_of_char by (Z.div_mod_to_equations; lia);
    simpl; Z.div_mod_to_equations; lia.
Qed.

(** Two days of the calendar are not written alike. *)
Lemma strftime_inj a b : valid a -> valid b -> strftime a = strftime b -> a = b.
Proof.
  intros Ha Hb Heq. unfold strftime in Heq.
  apply (f_equal list_ascii_of_string) in Heq.
  rewrite !list_ascii_of_string_of_list_ascii in Heq.
  apply app_inj_2 in Heq as [Hy Hrest]; [|reflexivity].
  apply (f_equal decimal) in Hy.
  rewrite !year_text_decimal in Hy by (calendar; lia).
  pose proof (days_in_month_bounds (year a) (month a)).
  pose proof (days_in_month_bounds (year b) (month b)).
  unfold pad2 in Hrest. cbn [app] in Hrest.
  injection Hrest as Hm1 Hm2 Hd1 Hd2.
  apply (f_equal digit_of) in Hm1, Hm2, Hd1, Hd2.
  rewrite !digit_of_char in Hm1, Hm2, Hd1, Hd2
    by (calendar; Z.div_mod_to_equations; lia).
  injection Hm1 as Hm1. injection Hm2 as Hm2.
  injection Hd1 as Hd1. injection Hd2 as Hd2.
  apply datetime_eq; [done|Z.div_mod_to_equations; lia..].
Qed.

(** X4. Every string of a list the planner returns is a date of the
    calendar as [strftime] writes it, and no date is listed twice.  The
    string is read back by [strptime] as that date when its year is
    written with four digits: on a platform that pads the year, and from
    the year 1000 on. *)
Theorem planned_dates_canonical_distinct start_date end_date dates :
  parse_date_range start_date end_date = Ok dates ->
  NoDup dates
  /\ Forall (fun s =>
       exists d,
         valid d /\ strftime d = s
         /\ (pads_year = true \/ 1000 <= year d -> strptime s = Ok d)) dates.
Proof.
  unfold parse_date_range. intros Hd.
  destruct (strptime start_date) as [start|x0] eqn:Hs; [|discriminate Hd].
  cbn [Py.bind] in Hd. pose proof (strptime_valid _ _ Hs) as Hvs.
  assert (Hwritten : forall d, valid d ->
            valid d /\ strftime d = strftime d
            /\ (pads_year = true \/ 1000 <= year d -> strptime (strftime d) = Ok d)).
  { intros d Hv. split; [done|]. split; [done|]. by apply strptime_strftime. }
  assert (Hone : forall l, Ok [strftime start] = Ok l ->
            NoDup l
            /\ Forall (fun s =>
                 exists d,
                   valid d /\ strftime d = s
                   /\ (pads_year = true \/ 1000 <= year d -> strptime s = Ok d)) l).
  { intros l Hl. inversion Hl; subst. split; [apply NoDup_singleton|].
    repeat constructor. exists start. by apply Hwritten. }
  destruct end_date as [e|]; [|by apply Hone].
  destruct (bool_decide (e = "")); [by apply Hone|]. cbn [negb] in Hd.
  destruct (strptime e) as [end_|x1] eqn:He; [|discriminate Hd].
  cbn [Py.bind] in Hd. pose proof (strptime_valid _ _ He) as Hve.
  destruct (dt_leb last_day end_) eqn:Hmax.
  { assert (end_ = last_day) as ->
      by (apply dt_le_antisym; [by apply valid_le_last_day|done]).
    rewrite (range_loop_overflow (S (remaining start last_day))) in Hd by (lia || done).
    discriminate Hd. }
  assert (end_ <> last_day) as Hne by (intros ->; discriminate Hmax).
  destruct (range_loop_days (S (remaining start end_)) start end_ [])
    as (days & Hrun & Hsorted & Hin); [lia|done..|].
  rewrite Hrun in Hd. inversion Hd; subst. cbn [app].
  assert (Hvalid : forall d, d ∈ days -> valid d) by (intros d Hin'; by apply Hin in Hin' as [? _]).
  split.
  - apply NoDup_fmap_2_strong; [|by apply sorted_NoDup].
    intros a b Ha Hb Heq. apply strftime_inj; auto.
  - apply Forall_fmap, list.Forall_forall. intros d Hin'. cbn.
    exists d. by apply Hwritten, Hvalid.
Qed.

End PlannerFurther.

Lemma range_first_last_consecutive_witness :
  exists days,
    parse_date_range "2024-02-27" (Some "2024-03-02") = Ok (strftime <$> days)
    /\ head days = Some {| year := 2024; month := 2; day := 27 |}
    /\ list.last days = Some {| year := 2024; month := 3; day := 2 |}
    /\ consecutive days.
Proof.
  apply (range_first_last_consecutive "2024-02-27" "2024-03-02"
           {| year := 2024; month := 2; day := 27 |}
           {| year := 2024; month := 3; day := 2 |});
    [reflexivity|reflexivity|reflexivity|discriminate].
Defined.

Lemma planner_exceptions_witness :
  (ValueError = ValueError
   /\ (strptime "2025-02-29" = Raise ValueError
       \/ exists e, Some "2025-03-01" = Some e /\ e <> ""
                    /\ strptime e = Raise ValueError))
  \/ (ValueError = OverflowError
      /\ exists e, Some "2025-03-01" = Some e /\ strptime e = Ok last_day).
Proof.
  apply (planner_exceptions "2025-02-29" (Some "2025-03-01") ValueError).
  reflexivity.
Defined.

Lemma range_to_last_day_raises_witness :
  parse_date_range "9999-12-01" (Some "9999-12-31") = Raise OverflowError.
Proof.
  apply (range_to_last_day_raises "9999-12-01" "9999-12-31"
           {| year := 9999; month := 12; day := 1 |}); reflexivity.
Defined.

Lemma planned_dates_canonical_distinct_witness :
  NoDup ["2025-08-05"]
  /\ Forall (fun s =>
       exists d,
         valid d /\ strftime d = s
         /\ (pads_year = true \/ 1000 <= year d -> strptime s = Ok d)) ["2025-08-05"].
Proof.
  apply (planned_dates_canonical_distinct "2025-8-5" None). reflexivity.
Defined.

(** ** Aggregator *)

Lemma sum_from_Ok_each {A} (f : A -> result json) xs :
  forall acc total,
    sum_from acc f xs = Ok total ->
    Forall (fun x => exists v, f x = Ok v /\ is_Some (as_number v)) xs.
Proof.
  induction xs as [|x xs IH]; intros acc total H; [constructor|].
  simpl in H. bind_inv H. rename v into y, Hv into Hy. bind_inv H.
  constructor; [|by eapply IH].
  exists y. split; [done|]. by eapply add_Ok.
Qed.

Lemma traverse_Ok_each {A B} (f : A -> result B) xs ys :
  traverse f xs = Ok ys -> Forall (fun x => exists y, f x = Ok y) xs.
Proof.
  intros H. apply traverse_Forall2 in H.
  induction H; constructor; eauto.
Qed.

Lemma getitem_Ok item key v :
  getitem item key = Ok v -> exists fields, item = JObj fields /\ fields !! key = Some v.
Proof.
  destruct item as [| | | | | |fields]; try discriminate. simpl.
  destruct (fields !! key) eqn:E; [|discriminate]. intros [= ->]. eauto.
Qed.

(** The records a summary was computed from have the documented shape. *)
Lemma transform_activity_data_records items date_ s :
  transform_activity_data (JArr items) date_ = Ok s -> Forall activity_record items.
Proof.
  intros H. apply transform_activity_data_Ok in H as [[Hf _]|[_ H]].
  - destruct items; [constructor|discriminate Hf].
  - destruct H as (items' & ps & Hit & Hps & _ & _ & _ & _ & H1 & H2 & H3 & H4 & H5).
    inversion Hit; subst items'; clear Hit.
    apply sum_from_Ok_each in H1, H2, H3, H4, H5. apply traverse_Ok_each in Hps.
    rewrite list.Forall_forall in *. intros item Hin.
    destruct (H1 item Hin) as (u & Hu & Hun).
    destruct (H2 item Hin) as (r & Hr & Hrn).
    destruct (H3 item Hin) as (p & Hp & Hpn).
    destruct (H4 item Hin) as (c & Hc & Hcn).
    destruct (H5 item Hin) as (g & Hg & Hgn).
    destruct (Hps item Hin) as (m & Hm).
    apply getitem_Ok in Hu as (fields & -> & Hu).
    apply getitem_Ok in Hr as (? & [= <-] & Hr).
    apply getitem_Ok in Hp as (? & [= <-] & Hp).
    apply getitem_Ok in Hc as (? & [= <-] & Hc).
    apply project_model_Ok in Hm as (? & [= <-] & _ & _ & _ & _ & _ & _ & _ & Hpr).
    simpl in Hg. injection Hg as <-.
    exists fields. repeat split; eauto.
Qed.

(** Numbers are added, or the conversion of an integer to [float]
    overflows. *)
Lemma sum_from_overflow {A} (f : A -> result json) xs :
  Forall (fun x => exists v, f x = Ok v /\ is_Some (as_number v)) xs ->
  forall acc,
    (exists total, sum_from acc f xs = Ok total)
    \/ sum_from acc f xs = Raise OverflowError.
Proof.
  induction 1 as [|x xs (v & Hv & Hn) _ IH]; intros acc; simpl; [eauto|].
  rewrite Hv. simpl. destruct (add acc v) as [acc'|e] eqn:E; simpl; [apply IH|].
  right. f_equal. by eapply add_Raise.
Qed.

(** Integers are added without exception. *)
Lemma sum_from_whole {A} (f : A -> result json) xs :
  Forall (fun x => exists z, f x = Ok (JInt z)) xs ->
  forall a, exists total, sum_from (Int a) f xs = Ok total.
Proof.
  induction 1 as [|x xs [z Hz] _ IH]; intros a; simpl; [eauto|].
  rewrite Hz. simpl. apply IH.
Qed.

(** Floats are added without exception: the sum starts from the integer
    [0], which is converted, and goes on in [float]. *)
Lemma sum_from_floats {A} (f : A -> result json) xs :
  Forall (fun x => exists y, f x = Ok (JFloat y)) xs ->
  forall acc,
    acc = Int 0 \/ (exists g, acc = Float g) ->
    exists total, sum_from acc f xs = Ok total.
Proof.
  induction 1 as [|x xs [y Hy] _ IH]; intros acc Hacc; simpl; [eauto|].
  rewrite Hy. simpl. destruct Hacc as [->|[g ->]]; simpl; apply IH; eauto.
Qed.

(** Once the five totals are computed the aggregator returns. *)
Lemma transform_activity_data_after_sums items date_ t1 t2 t3 t4 t5 :
  Forall activity_record items ->
  Py.sum (fun item => getitem item "usage") items = Ok t1 ->
  Py.sum (fun item => getitem item "requests") items = Ok t2 ->
  Py.sum (fun item => getitem item "prompt_tokens") items = Ok t3 ->
  Py.sum (fun item => getitem item "completion_tokens") items = Ok t4 ->
  Py.sum (fun item => get item "reasoning_tokens" (JInt 0)) items = Ok t5 ->
  exists s, transform_activity_data (JArr items) date_ = Ok s.
Proof.
  intros Hrec H1 H2 H3 H4 H5. unfold transform_activity_data.
  destruct items as [|item0 items0]; [simpl; eauto|].
  set (items := item0 :: items0) in *. simpl truthy. cbn [negb iter Py.bind].
  rewrite H1, H2, H3, H4, H5. cbn [Py.bind].
  destruct (traverse_defined project_model items) as [ps Hps].
  { eapply List.Forall_impl; [|exact Hrec].
    intros ? (fields & -> & (u & Hu & _) & (r & Hr & _) & (p & Hp & _)
                & (c & Hc & _) & _ & Hpr).
    apply project_model_defined; rewrite ?Hu, ?Hr, ?Hp, ?Hc; eauto. }
  rewrite Hps. cbn [Py.bind].
  rewrite (transform_costs_numeric items ps t1 H1 Hps). simpl. eauto.
Qed.

Lemma typed_activity_record item : typed_record item -> activity_record item.
Proof.
  intros (fields & -> & [u Hu] & [r Hr] & [p Hp] & [c Hc] & [g Hg] & Hpr).
  exists fields. rewrite Hg. repeat split; eauto.
Qed.

(** Runs the totals that are known, up to the one that raises. *)
Ltac raised :=
  unfold Py.sum;
  repeat match goal with
         | Hsum : sum_from _ _ _ = _ |- _ => rewrite Hsum; cbn [Py.bind]
         end.

(** X5. When the aggregator returns a summary for a list of items, every
    item is a dict that has numbers under [usage], [requests],
    [prompt_tokens] and [completion_tokens], a number or nothing under
    [reasoning_tokens], and a [provider_name].  For a list of such items
    it returns a summary or raises [OverflowError], which is the addition
    of a float and an integer beyond the range of [float].  It returns a
    summary when the costs are floats and the counters are integers. *)
Theorem aggregator_domain items date_ :
  ((exists s, transform_activity_data (JArr items) date_ = Ok s) ->
   Forall activity_record items)
  /\ (Forall activity_record items ->
      (exists s, transform_activity_data (JArr items) date_ = Ok s)
      \/ transform_activity_data (JArr items) date_ = Raise OverflowError)
  /\ (Forall typed_record items ->
      exists s, transform_activity_data (JArr items) date_ = Ok s).
Proof.
  split; [|split].
  - intros [s Hs]. by eapply transform_activity_data_records.
  - intros Hrec.
    destruct items as [|item0 items0]; [left; simpl; eauto|].
    set (items := item0 :: items0) in *.
    assert (Hstart : transform_activity_data (JArr items) date_
              = let* total_cost_ := Py.sum (fun item => getitem item "usage") items in
                let* total_requests_ :=
                  Py.sum (fun item => getitem item "requests") items in
                let* total_prompt_ :=
                  Py.sum (fun item => getitem item "prompt_tokens") items in
                let* total_completion_ :=
                  Py.sum (fun item => getitem item "completion_tokens") items in
                let* total_reasoning_ :=
                  Py.sum (fun item => get item "reasoning_tokens" (JInt 0)) items in
                let* unsorted := traverse project_model items in
                let* models_ := sort_models unsorted in
                Ok {| date := date_; total_cost := total_cost_;
                      total_requests := total_requests_;
                      total_prompt_tokens := total_prompt_;
                      total_completion_tokens := total_completion_;
                      total_reasoning_tokens := total_reasoning_;
                      model_count := length models_; models := models_ |})
      by reflexivity.
    destruct (sum_from_overflow (fun item => getitem item "usage") items) with (acc := Int 0)
      as [[t1 H1]|H1].
    { eapply List.Forall_impl; [|exact Hrec].
      intros ? (fields & -> & (v & Hv & Hn) & _). simpl. rewrite Hv. eauto. }
    2: { right. rewrite Hstart. by raised. }
    destruct (sum_from_overflow (fun item => getitem item "requests") items)
      with (acc := Int 0) as [[t2 H2]|H2].
    { eapply List.Forall_impl; [|exact Hrec].
      intros ? (fields & -> & _ & (v & Hv & Hn) & _). simpl. rewrite Hv. eauto. }
    2: { right. rewrite Hstart. by raised. }
    destruct (sum_from_overflow (fun item => getitem item "prompt_tokens") items)
      with (acc := Int 0) as [[t3 H3]|H3].
    { eapply List.Forall_impl; [|exact Hrec].
      intros ? (fields & -> & _ & _ & (v & Hv & Hn) & _). simpl. rewrite Hv. eauto. }
    2: { right. rewrite Hstart. by raised. }
    destruct (sum_from_overflow (fun item => getitem item "completion_tokens") items)
      with (acc := Int 0) as [[t4 H4]|H4].
    { eapply List.Forall_impl; [|exact Hrec].
      intros ? (fields & -> & _ & _ & _ & (v & Hv & Hn) & _). simpl. rewrite Hv. eauto. }
    2: { right. rewrite Hstart. by raised. }
    destruct (sum_from_overflow
                (fun item => get item "reasoning_tokens" (JInt 0)) items)
      with (acc := Int 0) as [[t5 H5]|H5].
    { eapply List.Forall_impl; [|exact Hrec].
      intros ? (fields & -> & _ & _ & _ & _ & Hn & _). simpl. eauto. }
    2: { right. rewrite Hstart. by raised. }
    left. by eapply transform_activity_data_after_sums.
  - intros Htyped.
    assert (Hrec : Forall activity_record items)
      by (eapply List.Forall_impl; [|exact Htyped]; apply typed_activity_record).
    destruct (sum_from_floats (fun item => getitem item "usage") items) with (acc := Int 0)
      as [t1 H1]; [|by left|].
    { eapply List.Forall_impl; [|exact Htyped].
      intros ? (fields & -> & [x Hx] & _). simpl. rewrite Hx. eauto. }
    destruct (sum_from_whole (fun item => getitem item "requests") items) with (a := 0)
      as [t2 H2].
    { eapply List.Forall_impl; [|exact Htyped].
      intros ? (fields & -> & _ & [z Hz] & _). simpl. rewrite Hz. eauto. }
    destruct (sum_from_whole (fun item => getitem item "prompt_tokens") items)
      with (a := 0) as [t3 H3].
    { eapply List.Forall_impl; [|exact Htyped].
      intros ? (fields & -> & _ & _ & [z Hz] & _). simpl. rewrite Hz. eauto. }
    destruct (sum_from_whole (fun item => getitem item "completion_tokens") items)
      with (a := 0) as [t4 H4].
    { eapply List.Forall_impl; [|exact Htyped].
      intros ? (fields & -> & _ & _ & _ & [z Hz] & _). simpl. rewrite Hz. eauto. }
    destruct (sum_from_whole
                (fun item => get item "reasoning_tokens" (JInt 0)) items)
      with (a := 0) as [t5 H5].
    { eapply List.Forall_impl; [|exact Htyped].
      intros ? (fields & -> & _ & _ & _ & _ & [z Hz] & _). simpl. rewrite Hz. eauto. }
    by eapply transform_activity_data_after_sums.
Qed.

(** The sum runs to the item after the prefix with the total of the
    prefix. *)
Lemma sum_from_stops {A} (f : A -> result json) prefix x rest :
  forall acc total,
    sum_from acc f prefix = Ok total ->
    sum_from acc f (prefix ++ x :: rest)
    = Py.bind (f x) (fun v => Py.bind (add total v) (fun a => sum_from a f rest)).
Proof.
  induction prefix as [|y prefix IH]; intros acc total Hp; simpl in *.
  - by inversion Hp.
  - destruct (f y) as [v|e]; [|discriminate Hp]. simpl in *.
    destruct (add acc v) as [acc'|e]; [|discriminate Hp]. simpl in *. by apply IH.
Qed.

(** X6. After items whose costs could be added, the first item that breaks
    the shape decides the exception: [KeyError] for a dict without
    [usage], [TypeError] for a dict whose [usage] is not a number, and
    [TypeError] for an item that is not a dict.  The items after it do not
    matter. *)
Theorem first_malformed_record prefix bad rest date_ total :
  Py.sum (fun item => getitem item "usage") prefix = Ok total ->
  (forall fields,
     bad = JObj fields -> fields !! "usage" = None ->
     transform_activity_data (JArr (prefix ++ bad :: rest)) date_
     = Raise (KeyError "usage"))
  /\ (forall fields v,
        bad = JObj fields -> fields !! "usage" = Some v -> as_number v = None ->
        transform_activity_data (JArr (prefix ++ bad :: rest)) date_ = Raise TypeError)
  /\ ((forall fields, bad <> JObj fields) ->
      transform_activity_data (JArr (prefix ++ bad :: rest)) date_ = Raise TypeError).
Proof.
  intros Hprefix.
  assert (Hraise : forall e,
    Py.bind (getitem bad "usage")
      (fun v => Py.bind (add total v)
         (fun a => sum_from a (fun item => getitem item "usage") rest))
    = Raise e ->
    transform_activity_data (JArr (prefix ++ bad :: rest)) date_ = Raise e).
  { intros e He. unfold transform_activity_data.
    replace (truthy (JArr (prefix ++ bad :: rest))) with true by (by destruct prefix).
    cbn [negb iter Py.bind]. unfold Py.sum at 1.
    rewrite (sum_from_stops _ prefix bad rest (Int 0) total Hprefix).
    by rewrite He. }
  split; [|split].
  - intros fields -> Hu. apply Hraise. simpl. by rewrite Hu.
  - intros fields v -> Hu Hn. apply Hraise. simpl. rewrite Hu.
    simpl. unfold add, as_number in *. by destruct (operand v) as [[z|f]|].
  - intros Hnot. apply Hraise.
    destruct bad as [| | | | | |fields]; try done. by destruct (Hnot fields).
Qed.

(** X7. Data that is not a list: when it is false in Python ([None], [0],
    [False], [""], [{}]) the aggregator returns the summary of a day
    without records, and otherwise it raises [TypeError]. *)
Theorem aggregate_of_non_list raw_data date_ :
  (forall items, raw_data <> JArr items) ->
  transform_activity_data raw_data date_
  = if truthy raw_data then Raise TypeError else Ok (empty_summary date_).
Proof.
  intros Hnot. unfold transform_activity_data.
  destruct (truthy raw_data) eqn:Ht; [|done]. cbn [negb].
  destruct raw_data as [|b|z|x|s|items|fields]; try done.
  - destruct s as [|c s]; [discriminate Ht|]. reflexivity.
  - by destruct (Hnot items).
  - simpl in Ht. cbn [iter Py.bind].
    destruct (map_to_list fields) as [|[k v] l] eqn:E; [|reflexivity].
    apply map_to_list_empty_iff in E as ->. discriminate Ht.
Qed.

Lemma traverse_Permutation {A B} (f : A -> result B) xs xs' :
  xs ≡ₚ xs' ->
  forall ys, traverse f xs = Ok ys ->
  exists ys', traverse f xs' = Ok ys' /\ ys ≡ₚ ys'.
Proof.
  induction 1 as [|x l l' _ IH|x y l|l l' l'' _ IH1 _ IH2]; intros ys H.
  - eauto.
  - simpl in H. bind_inv H. bind_inv H. inversion H; subst.
    destruct (IH _ Hv0) as (ys' & Hys' & Hp).
    exists (v :: ys'). simpl. rewrite Hv, Hys'. simpl. split; [done|by constructor].
  - simpl in H. bind_inv H. rename v into b1, Hv into Hb1.
    bind_inv H. rename v into rest1, Hv into Hrest1.
    bind_inv Hrest1. rename v into b2, Hv into Hb2.
    bind_inv Hrest1. rename v into rest2, Hv into Hrest2.
    inversion H; subst. inversion Hrest1; subst.
    eexists. simpl. rewrite Hb2, Hb1, Hrest2. simpl. split; [done|apply perm_swap].
  - destruct (IH1 _ H) as (ys' & Hys' & Hp1).
    destruct (IH2 _ Hys') as (ys'' & Hys'' & Hp2).
    exists ys''. split; [done|by etrans].
Qed.

(** A total of integers is the same for two orders of the entries. *)
Lemma integral_totals_agree (field : ModelBreakdown -> json) ms ps ps' total total' :
  ms ≡ₚ ps -> ps ≡ₚ ps' ->
  Py.sum (fun m => Ok (field m)) ps = Ok total ->
  Py.sum (fun m => Ok (field m)) ps' = Ok total' ->
  Forall (fun m => integral (field m)) ms ->
  total' = total.
Proof.
  intros Hm Hp Hsum Hsum' Hint.
  rewrite (sum_integral_Permutation field ps ps' Hp) in Hsum' by (by rewrite <- Hm).
  congruence.
Qed.

(** X8. The order in which the records are listed does not matter to the
    entries of the summary, to their number, or to a total of integers.
    (A total of floats is rounded at each addition and may depend on the
    order.) *)
Theorem aggregate_of_permutation items items' date_ s s' :
  items ≡ₚ items' ->
  transform_activity_data (JArr items) date_ = Ok s ->
  transform_activity_data (JArr items') date_ = Ok s' ->
  model_count s' = model_count s
  /\ models s' ≡ₚ models s
  /\ (Forall (fun m => integral (cost m)) (models s) -> total_cost s' = total_cost s)
  /\ (Forall (fun m => integral (requests m)) (models s) ->
      total_requests s' = total_requests s)
  /\ (Forall (fun m => integral (prompt_tokens m)) (models s) ->
      total_prompt_tokens s' = total_prompt_tokens s)
  /\ (Forall (fun m => integral (completion_tokens m)) (models s) ->
      total_completion_tokens s' = total_completion_tokens s)
  /\ (Forall (fun m => integral (reasoning_tokens m)) (models s) ->
      total_reasoning_tokens s' = total_reasoning_tokens s).
Proof.
  intros Hperm Hs Hs'.
  apply transform_entries in Hs as (ps & Hps & Hm & Hc & H1 & H2 & H3 & H4 & H5).
  apply transform_entries in Hs' as (ps' & Hps' & Hm' & Hc' & H1' & H2' & H3' & H4' & H5').
  destruct (traverse_Permutation project_model items items' Hperm ps Hps)
    as (ps'' & Hps'' & Hpp).
  assert (ps'' = ps') as -> by congruence.
  split; [by rewrite Hc, Hc', Hpp|].
  split; [by rewrite Hm, Hm', Hpp|].
  repeat split; intros Hint.
  - exact (integral_totals_agree cost _ _ _ _ _ Hm Hpp H1 H1' Hint).
  - exact (integral_totals_agree requests _ _ _ _ _ Hm Hpp H2 H2' Hint).
  - exact (integral_totals_agree prompt_tokens _ _ _ _ _ Hm Hpp H3 H3' Hint).
  - exact (integral_totals_agree completion_tokens _ _ _ _ _ Hm Hpp H4 H4' Hint).
  - exact (integral_totals_agree reasoning_tokens _ _ _ _ _ Hm Hpp H5 H5' Hint).
Qed.

Lemma aggregator_domain_witness :
  Forall typed_record (take 3 sample_day)
  /\ exists s, transform_activity_data (JArr (take 3 sample_day)) "2025-08-25" = Ok s.
Proof.
  assert (Forall typed_record (take 3 sample_day)) as Htyped.
  { repeat constructor; eexists; (split; [reflexivity|]);
      repeat split; eexists; reflexivity. }
  split; [exact Htyped|].
  apply (proj2 (proj2 (aggregator_domain (take 3 sample_day) "2025-08-25"))).
  exact Htyped.
Defined.

Lemma first_malformed_record_witness :
  transform_activity_data
    (JArr (sample_day ++ record [("requests", JInt 1)] :: sample_day)) "2025-08-25"
  = Raise (KeyError "usage").
Proof.
  exact (proj1 (first_malformed_record sample_day (record [("requests", JInt 1)])
                  sample_day "2025-08-25" (Float 11.5) eq_refl) _ eq_refl eq_refl).
Defined.

Lemma aggregate_of_non_list_witness :
  transform_activity_data (record [("usage", JInt 1)]) "2025-08-25" = Raise TypeError.
Proof.
  apply (aggregate_of_non_list (record [("usage", JInt 1)]) "2025-08-25").
  discriminate.
Defined.

Lemma aggregate_of_permutation_witness :
  exists s s',
    transform_activity_data (JArr sample_day) "2025-08-25" = Ok s
    /\ transform_activity_data (JArr (reverse sample_day)) "2025-08-25" = Ok s'
    /\ model_count s' = model_count s
    /\ models s' ≡ₚ models s
    /\ total_requests s' = total_requests s.
Proof.
  eexists. eexists. split; [vm_compute; reflexivity|].
  split; [vm_compute; reflexivity|].
  match goal with
  | |- model_count ?s' = model_count ?s /\ _ =>
      destruct (aggregate_of_permutation sample_day (reverse sample_day)
                  "2025-08-25" s s')
        as (Hcount & Hmodels & _ & Hrequests & _);
        [by rewrite reverse_Permutation|vm_compute; reflexivity
        |vm_compute; reflexivity|]
  end.
  split; [exact Hcount|]. split; [exact Hmodels|].
  apply Hrequests. cbn [models]. repeat constructor; eexists; reflexivity.
Defined.

(** The same three records in two orders: the total cost is 1e308 in one
    and infinite in the other. *)
Example total_cost_of_two_orders :
  match transform_activity_data (JArr swing_day) "2025-08-25",
        transform_activity_data (JArr (reverse swing_day)) "2025-08-25" with
  | Ok s, Ok s' =>
      total_cost s = Float 0x1.1ccf385ebc8ap+1023 /\ total_cost s' = Float infinity
  | _, _ => False
  end.
Proof. vm_compute. split; reflexivity. Qed.

(** ** Fetcher, sender and driver *)

Lemma raise_for_status_Ok r : raise_for_status r = Ok tt <-> status_passes r.
Proof.
  unfold raise_for_status, status_passes.
  destruct ((400 <=? status_code r) && (status_code r <? 600)) eqn:E; split;
    intros H; try done; try discriminate; lia.
Qed.

Lemma raise_for_status_Raise r :
  400 <= status_code r < 600 ->
  raise_for_status r = Raise (RequestException (HTTPError (status_code r))).
Proof.
  intros H. unfold raise_for_status.
  destruct ((400 <=? status_code r) && (status_code r <? 600)) eqn:E; [done|lia].
Qed.

(** The day before a day of the calendar, and back. *)
Lemma sub_one_day_before d :
  valid d -> d <> first_day ->
  exists p, sub_one_day d = Ok p /\ valid p /\ add_one_day p = Ok d.
Proof.
  intros Hv Hne. destruct d as [y m dd].
  unfold sub_one_day, add_one_day. cbn [year month day].
  pose proof (days_in_month_bounds y m) as Hm.
  pose proof (days_in_month_bounds y (m - 1)) as Hm1.
  destruct (Z.ltb_spec 1 dd); [|destruct (Z.ltb_spec 1 m); [|destruct (Z.ltb_spec MINYEAR y)]].
  - eexists. split; [done|]. split; [calendar; lia|]. cbn [year month day].
    destruct (Z.ltb_spec (dd - 1) (days_in_month y m)); [|calendar; lia].
    f_equal. f_equal. lia.
  - eexists. split; [done|]. split; [calendar; lia|]. cbn [year month day].
    rewrite Z.ltb_irrefl.
    destruct (Z.ltb_spec (m - 1) 12); [|calendar; lia].
    f_equal. apply datetime_eq; cbn [year month day]; calendar; lia.
  - eexists. split; [done|].
    assert (days_in_month (y - 1) 12 = 31) as Hdec by reflexivity.
    split; [calendar; lia|]. cbn [year month day].
    rewrite Hdec, Z.ltb_irrefl. cbn [Z.ltb Z.compare Pos.compare Pos.compare_cont].
    destruct (Z.ltb_spec (y - 1) MAXYEAR); [|calendar; lia].
    f_equal. apply datetime_eq; cbn [year month day]; calendar; lia.
  - exfalso. apply Hne. unfold first_day. f_equal; calendar; lia.
Qed.

Section DriverFurther.

Context {World : Type} {platform : Platform}.
Variable http_get :
  string -> list (string * string) -> list (string * string) ->
  World -> http_outcome * World.
Variable http_post : string -> Payload -> World -> http_outcome * World.
Variable utc_now : World -> datetime.
Variables openrouter_key posthog_key posthog_host : string.

Local Abbreviation fetch := (fetch_openrouter_activity http_get openrouter_key).
Local Abbreviation send := (send_to_posthog http_post posthog_key posthog_host).
Local Abbreviation sync_steps' :=
  (sync_steps http_get http_post openrouter_key posthog_key posthog_host).
Local Abbreviation sync_date' :=
  (sync_date http_get http_post openrouter_key posthog_key posthog_host).
Local Abbreviation activity_request date_ :=
  (http_get "https://openrouter.ai/api/v1/activity"
     [("Authorization", ("Bearer " ++ openrouter_key)%string)] [("date", date_)]).
Local Abbreviation envelope event_data date_ :=
  {| api_key := posthog_key;
     event := "openrouter_daily_activity";
     distinct_id := "enchanted_github_actions";
     properties := event_data;
     timestamp := (date_ ++ "T23:30:00Z")%string |}.
Local Abbreviation event_request event_data date_ :=
  (http_post (posthog_host ++ "/i/v0/e/")%string (envelope event_data date_)).

Hint Resolve silent_lift silent_ret silent_raise silent_mbind : silent.

(** What the fetcher returns, read off the response. *)
Lemma fetch_value date_ w :
  value (fetch date_ w)
  = match (activity_request date_ w).1 with
    | NoResponse => Raise (RequestException ConnectionFailed)
    | Response r =>
        let* _ := raise_for_status r in
        let* data := response_json r in
        let* has_error := contains data "error" in
        if (has_error : bool) then
          let* err := getitem data "error" in Raise (ApiError "OpenRouter API error" err)
        else get data "data" (JArr [])
    end.
Proof.
  unfold fetch_openrouter_activity. rewrite value_mbind. unfold requests_get.
  destruct (activity_request date_ w) as [[|r] w']; cbn [value after fst]; [done|].
  rewrite value_mbind. cbn [lift value after].
  destruct (raise_for_status r) as [[]|e]; [|done]. cbn [Py.bind].
  rewrite value_mbind. cbn [lift value after].
  destruct (response_json r) as [data|e]; [|done]. cbn [Py.bind].
  rewrite value_mbind. cbn [lift value after].
  destruct (contains data "error") as [[]|e]; [| |done]; cbn [Py.bind].
  - rewrite value_mbind. cbn [lift value after]. by destruct (getitem data "error").
  - done.
Qed.

Lemma fetch_after date_ w : after (fetch date_ w) = (activity_request date_ w).2.
Proof.
  unfold fetch_openrouter_activity. rewrite after_mbind. unfold requests_get.
  destruct (activity_request date_ w) as [[|r] w']; cbn [value after snd]; [done|].
  rewrite after_mbind. cbn [lift value after].
  destruct (raise_for_status r) as [[]|e]; [|done].
  rewrite after_mbind. cbn [lift value after].
  destruct (response_json r) as [data|e]; [|done].
  rewrite after_mbind. cbn [lift value after].
  destruct (contains data "error") as [[]|e]; [| |done].
  - rewrite after_mbind. cbn [lift value after]. by destruct (getitem data "error").
  - done.
Qed.

(** X10. The fetcher returns data exactly when the service answers with a
    status outside 400-599 and a JSON object without an [error] key; what
    it returns is the value under [data], and the empty list when there is
    no such key. *)
Theorem fetch_succeeds_iff date_ w raw_data :
  value (fetch date_ w) = Ok raw_data
  <-> exists r fields,
        (activity_request date_ w).1 = Response r
        /\ status_passes r
        /\ body r = Some (JObj fields)
        /\ fields !! "error" = None
        /\ raw_data = default (JArr []) (fields !! "data").
Proof.
  rewrite fetch_value. split.
  - destruct ((activity_request date_ w).1) as [|r]; [done|].
    destruct (raise_for_status r) as [[]|e] eqn:Hs; [|done]. cbn [Py.bind].
    apply raise_for_status_Ok in Hs.
    unfold response_json. destruct (body r) as [data|] eqn:Hb; [|done]. cbn [Py.bind].
    destruct data as [| | | |s|items|fields]; try done; cbn [contains Py.bind].
    + by destruct (index 0 "error" s).
    + by destruct (existsb _ items).
    + destruct (fields !! "error") eqn:He; [by cbn; rewrite ?He|].
      cbn. intros [= <-]. exists r, fields. done.
  - intros (r & fields & -> & Hs & Hb & He & ->).
    apply raise_for_status_Ok in Hs. rewrite Hs. cbn [Py.bind].
    unfold response_json. rewrite Hb. cbn. by rewrite He.
Qed.

(** X11. An answer that carries an [error] key makes the fetcher raise the
    script's own exception with the value of that key, whether or not the
    answer also carries [data]. *)
Theorem fetch_error_payload date_ w r fields err :
  (activity_request date_ w).1 = Response r ->
  status_passes r ->
  body r = Some (JObj fields) ->
  fields !! "error" = Some err ->
  value (fetch date_ w) = Raise (ApiError "OpenRouter API error" err).
Proof.
  intros Hr Hs Hb He. rewrite fetch_value, Hr.
  apply raise_for_status_Ok in Hs. rewrite Hs. cbn [Py.bind].
  unfold response_json. rewrite Hb. cbn. by rewrite He.
Qed.

(** X12. The fetcher makes one request whatever the answer: a GET to the
    activity endpoint with the key as bearer credential and the date as
    its only parameter; the world it leaves is the one the request
    left. *)
Theorem fetch_one_request date_ w :
  emitted (fetch_openrouter_activity http_get openrouter_key date_ w)
  = [HttpGet "https://openrouter.ai/api/v1/activity"
       [("Authorization", ("Bearer " ++ openrouter_key)%string)] [("date", date_)]]
  /\ after (fetch_openrouter_activity http_get openrouter_key date_ w)
     = (activity_request date_ w).2.
Proof. split; [apply fetch_emitted|apply fetch_after]. Qed.

(** What the sender returns, read off the response. *)
Lemma send_value event_data date_ w :
  value (send event_data date_ w)
  = match (event_request event_data date_ w).1 with
    | NoResponse => Raise (RequestException ConnectionFailed)
    | Response r =>
        let* _ := raise_for_status r in
        let* result_ := response_json r in
        let* status := get result_ "status" JNull in
        if negb (is_str status "Ok") then Raise (ApiError "PostHog API error" result_)
        else Ok tt
    end.
Proof.
  unfold send_to_posthog. rewrite value_mbind. unfold requests_post.
  destruct (event_request event_data date_ w) as [[|r] w']; cbn [value after fst]; [done|].
  rewrite value_mbind. cbn [lift value after].
  destruct (raise_for_status r) as [[]|e]; [|done]. cbn [Py.bind].
  rewrite value_mbind. cbn [lift value after].
  destruct (response_json r) as [result_|e]; [|done]. cbn [Py.bind].
  rewrite value_mbind. cbn [lift value after].
  destruct (get result_ "status" JNull) as [status|e]; [|done]. cbn [Py.bind].
  by destruct (negb (is_str status "Ok")).
Qed.

Lemma is_str_true v s : is_str v s = true <-> v = JStr s.
Proof.
  destruct v; simpl; try (split; [discriminate|discriminate]).
  rewrite bool_decide_eq_true. split; [by intros ->|by intros [= ->]].
Qed.

(** X13. The sender returns normally exactly when the service answers with
    a status outside 400-599 and a JSON object whose [status] is the
    string [Ok]; every other answer is an exception. *)
Theorem send_succeeds_iff event_data date_ w :
  value (send event_data date_ w) = Ok tt
  <-> exists r fields,
        (event_request event_data date_ w).1 = Response r
        /\ status_passes r
        /\ body r = Some (JObj fields)
        /\ fields !! "status" = Some (JStr "Ok").
Proof.
  rewrite send_value. split.
  - destruct ((event_request event_data date_ w).1) as [|r]; [done|].
    destruct (raise_for_status r) as [[]|e] eqn:Hs; [|done]. cbn [Py.bind].
    apply raise_for_status_Ok in Hs.
    unfold response_json. destruct (body r) as [data|] eqn:Hb; [|done]. cbn [Py.bind].
    destruct data as [| | | |s|items|fields]; try done. cbn [get Py.bind].
    destruct (is_str (default JNull (fields !! "status")) "Ok") eqn:Hok; [|done].
    intros _. apply is_str_true in Hok.
    exists r, fields. repeat split; try done.
    destruct (fields !! "status"); simpl in Hok; by subst.
  - intros (r & fields & -> & Hs & Hb & Hst).
    apply raise_for_status_Ok in Hs. rewrite Hs. cbn [Py.bind].
    unfold response_json. rewrite Hb. cbn. by rewrite Hst.
Qed.

(** X14. An answer with a status from 400 to 599 makes the fetcher and the
    sender raise [HTTPError] for that status, whatever the body says. *)
Theorem error_status_raises date_ event_data w r :
  400 <= status_code r < 600 ->
  ((activity_request date_ w).1 = Response r ->
   value (fetch_openrouter_activity http_get openrouter_key date_ w)
   = Raise (RequestException (HTTPError (status_code r))))
  /\ ((event_request event_data date_ w).1 = Response r ->
      value (send_to_posthog http_post posthog_key posthog_host event_data date_ w)
      = Raise (RequestException (HTTPError (status_code r)))).
Proof.
  intros Hs. split; intros Hr.
  - by rewrite fetch_value, Hr, raise_for_status_Raise.
  - by rewrite send_value, Hr, raise_for_status_Raise.
Qed.

(** *** One date *)

Ltac mute_chain :=
  repeat first
    [ apply mute_fetch; intros; reflexivity
    | apply mute_send; intros; reflexivity
    | apply mute_print; solve [reflexivity | case_match; reflexivity]
    | apply mute_silent; solve [auto with silent]
    | apply mute_try_except; [|intros ?]
    | apply mute_mbind; [|intros ?] ].

(** X15. A sync posts at most one event, and only after the data of its
    date was fetched, counted and aggregated and the total cost was
    logged: the event is then the envelope of that aggregate, posted to
    the ingestion endpoint of the host with the PostHog key.  When an
    earlier step raises, nothing is posted. *)
Theorem sync_posts_the_aggregate date_ w :
  omap posted (emitted (sync_date' date_ w))
  = match value (fetch date_ w) with
    | Ok raw_data =>
        match len raw_data, transform_activity_data raw_data date_ with
        | Ok _, Ok event_data =>
            match format_cost (total_cost event_data) with
            | Ok _ => [((posthog_host ++ "/i/v0/e/")%string, envelope event_data date_)]
            | Raise _ => []
            end
        | _, _ => []
        end
    | Raise _ => []
    end.
Proof.
  unfold sync_date. rewrite emitted_mbind. cbn [print value emitted after].
  rewrite omap_app. cbn [omap list_omap posted app].
  rewrite emitted_try_except, omap_app.
  assert (Hhandler : forall (r : result unit) w',
    omap posted
      match r with
      | Ok _ => []
      | Raise e =>
          emitted ((print (if is_request_exception e then MsgNetworkError date_ e
                           else MsgError date_ e) ;; (raise e : M World unit)) w')
      end = []) by (by intros [[]|e] w').
  rewrite Hhandler.
  rewrite app_nil_r.
  unfold sync_steps. rewrite emitted_mbind, omap_app.
  rewrite (is_mute posted (fetch date_) w) by mute_chain. cbn [app].
  destruct (value (fetch date_ w)) as [raw_data|e]; [|done].
  rewrite emitted_mbind. cbn [lift value emitted after app].
  destruct (len raw_data) as [found|e]; [|done].
  rewrite emitted_mbind. cbn [print value emitted after]. rewrite omap_app.
  cbn [omap list_omap posted app].
  rewrite emitted_mbind. cbn [lift value emitted after app].
  destruct (transform_activity_data raw_data date_) as [event_data|e]; [|done].
  rewrite emitted_mbind. cbn [lift value emitted after app].
  destruct (format_cost (total_cost event_data)) as [shown|e]; [|done].
  rewrite emitted_mbind. cbn [print value emitted after]. rewrite omap_app.
  cbn [omap list_omap posted app].
  rewrite emitted_mbind, omap_app, send_emitted. cbn [omap list_omap posted app].
  f_equal. by destruct (value (send event_data date_ _)).
Qed.

Lemma ends_with_print (msg : message) :
  ends_with (Printed msg) (print (World := World) msg).
Proof. by intros w a _. Qed.

Lemma ends_with_mbind {A B} (m : M World A) (k : A -> M World B) e :
  (forall a, ends_with e (k a)) -> ends_with e (mbind m k).
Proof.
  intros Hk w b H. rewrite value_mbind in H. rewrite emitted_mbind.
  destruct (value (m w)) as [a|x]; [|discriminate H].
  rewrite list.last_app, (Hk a _ _ H). done.
Qed.

Lemma sync_steps_ends date_ : ends_with (Printed MsgSent) (sync_steps' date_).
Proof.
  unfold sync_steps. repeat (apply ends_with_mbind; intros ?). apply ends_with_print.
Qed.

(** X16. The log of a sync begins with the line that names the date and
    ends with its outcome: the success line when the sync returns, and
    otherwise the line that names the exception, as a network error when
    it is a [RequestException] and as an error when it is not; the
    exception is then raised again unchanged. *)
Theorem sync_log_outcome date_ w :
  head (emitted (sync_date' date_ w)) = Some (Printed (MsgFetching date_))
  /\ list.last (emitted (sync_date' date_ w))
     = Some (Printed match value (sync_date' date_ w) with
                     | Ok _ => MsgSent
                     | Raise e =>
                         if is_request_exception e then MsgNetworkError date_ e
                         else MsgError date_ e
                     end)
  /\ value (sync_date' date_ w) = value (sync_steps' date_ w).
Proof.
  split; [|split; [|apply sync_date_value]].
  - unfold sync_date. rewrite emitted_mbind. done.
  - rewrite sync_date_value.
    unfold sync_date. rewrite emitted_mbind. cbn [print value emitted after].
    rewrite emitted_try_except.
    destruct (value (sync_steps' date_ w)) as [[]|e] eqn:E.
    + rewrite app_nil_r, list.last_app, (sync_steps_ends date_ w tt E). done.
    + rewrite emitted_mbind. cbn [print value emitted after raise].
      rewrite !list.last_app. done.
Qed.

(** *** The command line *)

Local Abbreviation main' := (main http_get http_post utc_now).
Local Abbreviation plan_dates' := (plan_dates (World := World) utc_now).
Local Abbreviation run_dates' env :=
  (run_dates http_get http_post (default "" (OPENROUTER_API_KEY env))
     (default "" (POSTHOG_API_KEY env)) (default "" (POSTHOG_HOST env))).
Local Abbreviation outcomes' env :=
  (outcomes http_get http_post (default "" (OPENROUTER_API_KEY env))
     (default "" (POSTHOG_API_KEY env)) (default "" (POSTHOG_HOST env))).

Lemma main_configured args env w :
  configured env = true ->
  main' args env w
  = mbind (plan_dates' args) (fun dates => run_dates' env dates ;; ret 0) w.
Proof. unfold main, configured. by intros ->. Qed.

Lemma plan_dates_after args w : after (plan_dates' args w) = w.
Proof.
  unfold plan_dates.
  destruct (given (arg_start_date args)); [|destruct (given (arg_date args))].
  - rewrite after_mbind. cbn [lift value after].
    destruct (parse_date_range _ _) as [dates|e]; [|done].
    rewrite after_mbind. cbn [lift value after].
    destruct (first_item dates); [|done].
    rewrite after_mbind. cbn [lift value after].
    by destruct (last_item dates).
  - done.
  - rewrite after_mbind. unfold get_yesterday. cbn [lift value after].
    by destruct (sub_one_day (utc_now w)).
Qed.

Lemma plan_dates_no_request args : mute requested_date (plan_dates' args).
Proof.
  unfold plan_dates.
  destruct (given (arg_start_date args)); [|destruct (given (arg_date args))].
  - mute_chain.
  - mute_chain.
  - apply mute_mbind; [by intros w|intros ?]. mute_chain.
Qed.

Lemma main_returns_with_dates args env w dates :
  configured env = true ->
  value (plan_dates' args w) = Ok dates ->
  value (main' args env w) = Ok 0
  /\ omap requested_date (emitted (main' args env w)) = dates
  /\ list.last (emitted (main' args env w))
     = Some (Printed (MsgSummary (successes (outcomes' env dates w)) (length dates))).
Proof.
  intros Hcfg Hplan. rewrite (main_configured _ _ _ Hcfg).
  rewrite value_mbind, emitted_mbind, Hplan, plan_dates_after.
  rewrite !value_mbind, run_dates_value. split; [done|].
  rewrite !emitted_mbind, run_dates_value, run_dates_emitted. cbn [ret emitted].
  rewrite app_nil_r. split.
  - rewrite !omap_app, (is_mute _ _ w (plan_dates_no_request args)), sync_all_requests.
    cbn. apply app_nil_r.
  - by rewrite app_assoc, list.last_snoc.
Qed.

(** X17. With the three settings present and dates planned, [main]
    returns, so that the process ends with status 0, however many dates
    failed: it asks for the activity of each planned date, and the last
    line it prints is the summary. *)
Theorem main_exit_status_zero args env w dates :
  configured env = true ->
  value (plan_dates' args w) = Ok dates ->
  value (main' args env w) = Ok 0
  /\ omap requested_date (emitted (main' args env w)) = dates
  /\ list.last (emitted (main' args env w))
     = Some (Printed (MsgSummary (successes (outcomes' env dates w)) (length dates))).
Proof. apply main_returns_with_dates. Qed.

(** X18. One of the three settings absent or empty: [main] prints its two
    lines, requests nothing and calls [sys.exit(1)].  With the three
    settings present it never does: it returns or it raises. *)
Theorem main_exit_status_one args env w :
  (configured env = false ->
   main' args env w
   = {| value := Ok 1; after := w;
        emitted := [Printed MsgMissingEnv; Printed MsgRequiredEnv] |})
  /\ (configured env = true -> value (main' args env w) <> Ok 1).
Proof.
  split; intros Hcfg.
  - unfold main, configured in *. by rewrite Hcfg.
  - rewrite (main_configured _ _ _ Hcfg), value_mbind.
    destruct (value (plan_dates' args w)); [|done].
    by rewrite !value_mbind, run_dates_value.
Qed.

(** X19. The date of [--date] is not read as a date: any text that is not
    empty is taken as the one date to sync, and the activity is asked for
    with that text. *)
Theorem explicit_date_is_not_validated args env w text :
  configured env = true ->
  given (arg_start_date args) = false ->
  arg_date args = Some text ->
  text <> "" ->
  value (main' args env w) = Ok 0
  /\ head (emitted (main' args env w)) = Some (Printed (MsgSpecific text))
  /\ omap requested_date (emitted (main' args env w)) = [text].
Proof.
  intros Hcfg Hstart Hdate Htext.
  assert (plan_dates' args w
          = {| value := Ok [text]; after := w; emitted := [Printed (MsgSpecific text)] |})
    as Hplan.
  { unfold plan_dates. rewrite Hstart, Hdate. cbn [given].
    by rewrite bool_decide_eq_false_2. }
  destruct (main_returns_with_dates args env w [text] Hcfg) as (Hv & Hr & _);
    [by rewrite Hplan|].
  split; [done|]. split; [|done].
  rewrite (main_configured _ _ _ Hcfg), emitted_mbind, Hplan. done.
Qed.

(** X20. A start or end date that the planner raises for stops [main] with
    that exception before anything is printed or requested. *)
Theorem planner_exception_stops_main args env w start_date x :
  configured env = true ->
  arg_start_date args = Some start_date ->
  start_date <> "" ->
  parse_date_range start_date (arg_end_date args) = Raise x ->
  main' args env w = {| value := Raise x; after := w; emitted := [] |}.
Proof.
  intros Hcfg Hstart Hne Hparse. rewrite (main_configured _ _ _ Hcfg).
  assert (plan_dates' args w = {| value := Raise x; after := w; emitted := [] |})
    as Hplan.
  { unfold plan_dates. rewrite Hstart. cbn [given default].
    rewrite bool_decide_eq_false_2 by done. cbn [negb].
    unfold mbind, lift, id. cbn [value after emitted]. by rewrite Hparse. }
  unfold mbind at 1. by rewrite Hplan.
Qed.

(** X21. A range whose end date precedes its start date stops [main] too:
    the planner returns no date, and the line that announces the range
    raises [IndexError] at [dates[0]], before anything is printed or
    requested. *)
Theorem reversed_range_stops_main args env w start_date end_date start end_ :
  configured env = true ->
  arg_start_date args = Some start_date ->
  arg_end_date args = Some end_date ->
  strptime start_date = Ok start ->
  strptime end_date = Ok end_ ->
  dt_lt end_ start ->
  main' args env w = {| value := Raise IndexError; after := w; emitted := [] |}.
Proof.
  intros Hcfg Hstart Hend Hs He Hlt. rewrite (main_configured _ _ _ Hcfg).
  assert (parse_date_range start_date (Some end_date) = Ok []) as Hparse.
  { unfold parse_date_range. rewrite Hs. cbn [Py.bind].
    rewrite bool_decide_eq_false_2 by (by eapply strptime_nonempty).
    cbn [negb]. rewrite He. cbn [Py.bind].
    rewrite range_loop_step. unfold dt_lt in Hlt. by rewrite Hlt. }
  assert (plan_dates' args w = {| value := Raise IndexError; after := w; emitted := [] |})
    as Hplan.
  { unfold plan_dates. rewrite Hstart, Hend. cbn [given default].
    rewrite bool_decide_eq_false_2 by (by eapply strptime_nonempty). cbn [negb].
    unfold mbind, lift, id. cbn [value after emitted]. by rewrite Hparse. }
  unfold mbind at 1. by rewrite Hplan.
Qed.

(** X22. [get_yesterday] reads the clock and changes nothing: on any day
    after the first of the calendar it returns, in the form
    [strftime] writes, the date whose next day is the day of the clock. *)
Theorem yesterday_is_the_day_before w :
  valid (utc_now w) ->
  utc_now w <> first_day ->
  exists yesterday,
    get_yesterday utc_now w
    = {| value := Ok (strftime yesterday); after := w; emitted := [] |}
    /\ valid yesterday
    /\ add_one_day yesterday = Ok (utc_now w).
Proof.
  intros Hv Hne.
  destruct (sub_one_day_before (utc_now w) Hv Hne) as (p & Hp & Hvp & Hadd).
  exists p. unfold get_yesterday, lift. rewrite Hp. done.
Qed.

(** X23. Without [--start-date] and [--date], [main] syncs the one day
    before the day of the clock. *)
Theorem default_is_yesterday args env w :
  configured env = true ->
  given (arg_start_date args) = false ->
  given (arg_date args) = false ->
  valid (utc_now w) ->
  utc_now w <> first_day ->
  exists yesterday,
    add_one_day yesterday = Ok (utc_now w)
    /\ value (main' args env w) = Ok 0
    /\ head (emitted (main' args env w))
       = Some (Printed (MsgYesterday (strftime yesterday)))
    /\ omap requested_date (emitted (main' args env w)) = [strftime yesterday].
Proof.
  intros Hcfg Hstart Hdate Hv Hne.
  destruct (sub_one_day_before (utc_now w) Hv Hne) as (p & Hp & Hvp & Hadd).
  exists p. split; [done|].
  assert (plan_dates' args w
          = {| value := Ok [strftime p]; after := w;
               emitted := [Printed (MsgYesterday (strftime p))] |}) as Hplan.
  { unfold plan_dates. rewrite Hstart, Hdate.
    unfold mbind at 1. unfold get_yesterday, lift. rewrite Hp. done. }
  destruct (main_returns_with_dates args env w [strftime p] Hcfg) as (Hval & Hr & _);
    [by rewrite Hplan|].
  split; [done|]. split; [|done].
  rewrite (main_configured _ _ _ Hcfg), emitted_mbind, Hplan. done.
Qed.

End DriverFurther.

(** *** Runs *)

Lemma fetch_succeeds_iff_witness :
  value (fetch_openrouter_activity demo_get "or-key" "2025-08-25" tt)
  = Ok (JArr sample_day).
Proof.
  apply (proj2 (fetch_succeeds_iff demo_get "or-key" "2025-08-25" tt (JArr sample_day))).
  exists {| status_code := 200; body := Some (record [("data", JArr sample_day)]) |},
         (list_to_map [("data", JArr sample_day)]).
  split; [reflexivity|]. split; [left; simpl; lia|].
  split; [reflexivity|]. split; reflexivity.
Defined.

Lemma fetch_error_payload_witness :
  value (fetch_openrouter_activity (answering_get (Response error_answer))
           "or-key" "2025-08-25" tt)
  = Raise (ApiError "OpenRouter API error" (JStr "quota exceeded")).
Proof.
  apply (fetch_error_payload (answering_get (Response error_answer)) "or-key"
           "2025-08-25" tt error_answer
           (list_to_map [("error", JStr "quota exceeded"); ("data", JArr sample_day)]));
    [reflexivity|left; simpl; lia|reflexivity|reflexivity].
Defined.

Lemma send_succeeds_iff_witness :
  value (send_to_posthog demo_post "ph-key" "https://us.i.posthog.com"
           (empty_summary "2025-08-20") "2025-08-20" tt)
  = Ok tt.
Proof.
  apply (proj2 (send_succeeds_iff demo_post "ph-key" "https://us.i.posthog.com"
                  (empty_summary "2025-08-20") "2025-08-20" tt)).
  exists {| status_code := 200; body := Some (record [("status", JStr "Ok")]) |},
         (list_to_map [("status", JStr "Ok")]).
  split; [reflexivity|]. split; [left; simpl; lia|]. split; reflexivity.
Defined.

Lemma error_status_raises_witness :
  value (fetch_openrouter_activity (answering_get (Response busy_answer))
           "or-key" "2025-08-25" tt)
  = Raise (RequestException (HTTPError 503))
  /\ value (send_to_posthog (answering_post (Response busy_answer)) "ph-key"
              "https://us.i.posthog.com" (empty_summary "2025-08-25") "2025-08-25" tt)
     = Raise (RequestException (HTTPError 503)).
Proof.
  destruct (error_status_raises (answering_get (Response busy_answer))
              (answering_post (Response busy_answer)) "or-key" "ph-key"
              "https://us.i.posthog.com" "2025-08-25" (empty_summary "2025-08-25")
              tt busy_answer) as [Hfetch Hsend]; [simpl; lia|].
  split; [apply Hfetch|apply Hsend]; reflexivity.
Defined.

(** A backfill of three days while OpenRouter cannot be reached: every
    date fails, and the status is 0. *)
(** A day whose cost is an integer beyond the range of [float] is fetched
    and aggregated, and nothing is posted for it. *)
Lemma sync_posts_the_aggregate_witness :
  omap posted
    (emitted (sync_date
                (answering_get
                   (Response {| status_code := 200;
                                body := Some (record [("data", JArr huge_day)]) |}))
                demo_post "or-key" "ph-key" "https://us.i.posthog.com"
                "2025-08-25" tt))
  = [].
Proof.
  rewrite (sync_posts_the_aggregate
             (answering_get
                (Response {| status_code := 200;
                             body := Some (record [("data", JArr huge_day)]) |}))
             demo_post "or-key" "ph-key" "https://us.i.posthog.com" "2025-08-25" tt).
  vm_compute. reflexivity.
Defined.

Lemma main_exit_status_zero_witness :
  let r := main (answering_get NoResponse) demo_post demo_clock
             (backfill "2025-08-20" "2025-08-22") demo_env tt in
  value r = Ok 0
  /\ omap requested_date (emitted r) = ["2025-08-20"; "2025-08-21"; "2025-08-22"]
  /\ list.last (emitted r) = Some (Printed (MsgSummary 0 3)).
Proof.
  destruct (main_exit_status_zero (answering_get NoResponse) demo_post demo_clock
              (backfill "2025-08-20" "2025-08-22") demo_env tt
              ["2025-08-20"; "2025-08-21"; "2025-08-22"])
    as (Hvalue & Hrequests & Hlast); [reflexivity|vm_compute; reflexivity|].
  cbn zeta. split; [exact Hvalue|]. split; [exact Hrequests|].
  rewrite Hlast. vm_compute. reflexivity.
Defined.

Lemma main_exit_status_one_witness :
  main demo_get demo_post demo_clock no_arguments
    {| OPENROUTER_API_KEY := Some "or-key"; POSTHOG_API_KEY := Some "";
       POSTHOG_HOST := Some "https://us.i.posthog.com" |} tt
  = {| value := Ok 1; after := tt;
       emitted := [Printed MsgMissingEnv; Printed MsgRequiredEnv] |}.
Proof.
  apply (proj1 (main_exit_status_one demo_get demo_post demo_clock no_arguments
                  {| OPENROUTER_API_KEY := Some "or-key"; POSTHOG_API_KEY := Some "";
                     POSTHOG_HOST := Some "https://us.i.posthog.com" |} tt)).
  reflexivity.
Defined.

Lemma explicit_date_is_not_validated_witness :
  let r := main demo_get demo_post demo_clock (only_date "last tuesday") demo_env tt in
  value r = Ok 0
  /\ head (emitted r) = Some (Printed (MsgSpecific "last tuesday"))
  /\ omap requested_date (emitted r) = ["last tuesday"].
Proof.
  apply (explicit_date_is_not_validated demo_get demo_post demo_clock
           (only_date "last tuesday") demo_env tt "last tuesday");
    [reflexivity|reflexivity|reflexivity|discriminate].
Defined.

Lemma planner_exception_stops_main_witness :
  main demo_get demo_post demo_clock (backfill "2025-02-30" "2025-03-02") demo_env tt
  = {| value := Raise ValueError; after := tt; emitted := [] |}.
Proof.
  apply (planner_exception_stops_main demo_get demo_post demo_clock
           (backfill "2025-02-30" "2025-03-02") demo_env tt "2025-02-30" ValueError);
    [reflexivity|reflexivity|discriminate|reflexivity].
Defined.

Lemma reversed_range_stops_main_witness :
  main demo_get demo_post demo_clock (backfill "2025-08-22" "2025-08-20") demo_env tt
  = {| value := Raise IndexError; after := tt; emitted := [] |}.
Proof.
  apply (reversed_range_stops_main demo_get demo_post demo_clock
           (backfill "2025-08-22" "2025-08-20") demo_env tt "2025-08-22" "2025-08-20"
           {| year := 2025; month := 8; day := 22 |}
           {| year := 2025; month := 8; day := 20 |}); reflexivity.
Defined.

Lemma yesterday_is_the_day_before_witness :
  exists yesterday,
    get_yesterday demo_clock tt
    = {| value := Ok (strftime yesterday); after := tt; emitted := [] |}
    /\ valid yesterday
    /\ add_one_day yesterday = Ok {| year := 2025; month := 8; day := 26 |}.
Proof.
  apply (yesterday_is_the_day_before demo_clock tt); [reflexivity|discriminate].
Defined.

Lemma default_is_yesterday_witness :
  exists yesterday,
    add_one_day yesterday = Ok {| year := 2025; month := 8; day := 26 |}
    /\ value (main demo_get demo_post demo_clock no_arguments demo_env tt) = Ok 0
    /\ head (emitted (main demo_get demo_post demo_clock no_arguments demo_env tt))
       = Some (Printed (MsgYesterday (strftime yesterday)))
    /\ omap requested_date
         (emitted (main demo_get demo_post demo_clock no_arguments demo_env tt))
       = [strftime yesterday].
Proof.
  apply (default_is_yesterday demo_get demo_post demo_clock no_arguments demo_env tt);
    [reflexivity|reflexivity|reflexivity|reflexivity|discriminate].
Defined.
